(** * Course purchase controller

    A shallow embedding of [server/controllers/coursePurchase.controller.js]
    (checkout-session creation, payment webhook, purchase-status queries)
    together with the properties its specification states about it.

    JavaScript numbers are IEEE 754 binary64 values; they are modelled with
    the Standard Library's [spec_float] and its correctly rounded
    operations.  Mongoose collections are lists of documents in natural
    (insertion) order.  Handlers run in a small state-and-exception monad
    over a [World] holding the database, the console and a fault budget for
    database calls. *)

From Stdlib Require Import ZArith List String Ascii Bool Lia.
From Stdlib Require Import Decimal DecimalString DecimalN.
From Stdlib Require Import Floats.SpecFloat.
Import ListNotations.
Local Open Scope string_scope.

(** ** JavaScript numbers *)

Module JsNumber.

Definition prec : Z := 53.
Definition emax : Z := 1024.

Definition number := spec_float.

(** [x / y] and [x * y] on Numbers. *)
Definition div (x y : number) : number := SFdiv prec emax x y.
Definition mul (x y : number) : number := SFmul prec emax x y.

(** The Number denoted by an integer literal. *)
Definition of_Z (n : Z) : number := binary_normalize prec emax n 0 false.

(** The Number denoted by a decimal literal whose value is the rational
    [n / d] (3.32 is [of_ratio 332 100]): the binary64 value nearest to
    it.  Both operands of the division are taken exactly, so the quotient
    is rounded once. *)
Definition of_ratio (n : Z) (d : positive) : number :=
  match n with
  | Z0 => S754_zero false
  | Zpos m => div (S754_finite false m 0) (S754_finite false d 0)
  | Zneg m => div (S754_finite true m 0) (S754_finite false d 0)
  end.

(** ToBoolean on a Number: [0], [-0] and [NaN] are falsy. *)
Definition truthy (x : number) : bool :=
  match x with
  | S754_zero _ | S754_nan => false
  | _ => true
  end.

(** The integer [n] for which [n / 100 - m * 2^e] is as close to zero as
    possible, the larger one when there are two (step 10.a of
    Number.prototype.toFixed, with two fraction digits). *)
Definition nearest_hundredths (m : positive) (e : Z) : Z :=
  match e with
  | Zneg p => (200 * Zpos m + 2 ^ Zpos p) / 2 ^ (Zpos p + 1)
  | _ => 100 * Zpos m * 2 ^ e
  end.

(** [x >= 10^21] for a positive finite [m * 2^e]. *)
Definition ge_1e21 (m : positive) (e : Z) : bool :=
  match e with
  | Zneg p => (10 ^ 21 * 2 ^ Zpos p <=? Zpos m)%Z
  | _ => (10 ^ 21 <=? Zpos m * 2 ^ e)%Z
  end.

(** [Number(x.toFixed(2))]: the Number that the string [x.toFixed(2)]
    converts to when it is used as an operand of [*].  For a finite [x]
    below [10^21] the string is the decimal expansion of
    [nearest_hundredths] with two fraction digits (with a leading [-]
    when [x < 0]), and it converts to the nearest binary64 value; for
    [NaN], the infinities and larger magnitudes the string is
    [String(x)], which converts back to [x]. *)
Definition toFixed2_toNumber (x : number) : number :=
  match x with
  | S754_zero _ => S754_zero false
  | S754_finite s m e =>
      if ge_1e21 m e then x
      else match nearest_hundredths m e with
           | Zpos n => div (S754_finite s n 0) (S754_finite false 100 0)
           | _ => S754_zero s
           end
  | _ => x
  end.

(** Whether a Number is a (mathematical) integer. *)
Definition is_integer (x : number) : bool :=
  match x with
  | S754_zero _ => true
  | S754_finite _ m e =>
      match e with
      | Zneg p => (Zpos m mod 2 ^ Zpos p =? 0)%Z
      | _ => true
      end
  | _ => false
  end.

(** [Math.round(x)]: the integer nearest to [x], ties towards
    [+Infinity]. *)
Definition round (x : number) : number :=
  match x with
  | S754_finite s m (Zneg p) =>
      let n := ((cond_Zopp s (2 * Zpos m) + 2 ^ Zpos p) / 2 ^ (Zpos p + 1))%Z in
      match n with
      | Z0 => S754_zero s
      | _ => of_Z n
      end
  | _ => x
  end.

End JsNumber.


Import JsNumber.

(** ** Documents

    Only the fields the controller reads or writes are kept; the schemas
    themselves live in the model files. *)

Definition ObjectId := string.

Record Course := {
  course_id : ObjectId;
  courseTitle : string;
  courseThumbnail : string;
  coursePrice : number;
  creator : ObjectId;
  lectures : list ObjectId;
  enrolledStudents : list ObjectId;
}.

Record Lecture := {
  lecture_id : ObjectId;
  isPreviewFree : bool;
}.

Record User := {
  user_id : ObjectId;
  enrolledCourses : list ObjectId;
}.

Record CoursePurchase := {
  purchase_id : ObjectId;
  courseId : ObjectId;
  userId : ObjectId;
  amount : number;
  status : string;
  paymentId : option string;
}.

Definition set_isPreviewFree (b : bool) (l : Lecture) : Lecture :=
  {| lecture_id := lecture_id l; isPreviewFree := b |}.

Definition set_enrolledCourses (f : list ObjectId -> list ObjectId) (u : User) : User :=
  {| user_id := user_id u; enrolledCourses := f (enrolledCourses u) |}.

Definition set_enrolledStudents (f : list ObjectId -> list ObjectId) (c : Course) : Course :=
  {| course_id := course_id c; courseTitle := courseTitle c;
     courseThumbnail := courseThumbnail c; coursePrice := coursePrice c;
     creator := creator c; lectures := lectures c;
     enrolledStudents := f (enrolledStudents c) |}.

Definition set_amount (x : number) (p : CoursePurchase) : CoursePurchase :=
  {| purchase_id := purchase_id p; courseId := courseId p; userId := userId p;
     amount := x; status := status p; paymentId := paymentId p |}.

Definition set_status (s : string) (p : CoursePurchase) : CoursePurchase :=
  {| purchase_id := purchase_id p; courseId := courseId p; userId := userId p;
     amount := amount p; status := s; paymentId := paymentId p |}.

Definition set_paymentId (i : string) (p : CoursePurchase) : CoursePurchase :=
  {| purchase_id := purchase_id p; courseId := courseId p; userId := userId p;
     amount := amount p; status := status p; paymentId := Some i |}.

(** ** Collections

    A collection is the list of its documents in natural order. *)

Section Collection.
Context {A : Type}.

(** [findOne]: the first document matching the filter. *)
Definition findOne (f : A -> bool) (l : list A) : option A := List.find f l.

(** [findOneAndDelete]: removes the first matching document. *)
Fixpoint findOneAndDelete (f : A -> bool) (l : list A) : list A :=
  match l with
  | [] => []
  | x :: l' => if f x then l' else x :: findOneAndDelete f l'
  end.

(** [updateOne]: rewrites the first matching document. *)
Fixpoint updateOne (f : A -> bool) (g : A -> A) (l : list A) : list A :=
  match l with
  | [] => []
  | x :: l' => if f x then g x :: l' else x :: updateOne f g l'
  end.

(** [updateMany]: rewrites every matching document. *)
Definition updateMany (f : A -> bool) (g : A -> A) (l : list A) : list A :=
  List.map (fun x => if f x then g x else x) l.

End Collection.

(** The [$in] and [$addToSet] operators on arrays of identifiers. *)
Definition op_in (i : ObjectId) (l : list ObjectId) : bool :=
  List.existsb (String.eqb i) l.

Definition addToSet (i : ObjectId) (l : list ObjectId) : list ObjectId :=
  if op_in i l then l else l ++ [i].

Record Db := {
  Courses : list Course;
  Lectures : list Lecture;
  Users : list User;
  CoursePurchases : list CoursePurchase;
}.

(** ** The world a handler runs in *)

(** A thrown JavaScript error: its constructor name and its message. *)
Record Exn := { exn_name : string; exn_message : string }.

Inductive LogArg :=
| LogText (s : string)
| LogError (e : Exn)
| LogPurchase (p : option CoursePurchase).

(** [dbBudget] is the number of database calls that still succeed before
    the connection is lost; [None] when it never is. *)
Record World := {
  db : Db;
  dbBudget : option nat;
  console : list (list LogArg);
  objectIds : nat;
}.

Definition with_db (d : Db) (w : World) : World :=
  {| db := d; dbBudget := dbBudget w; console := console w; objectIds := objectIds w |}.

Definition with_dbBudget (b : option nat) (w : World) : World :=
  {| db := db w; dbBudget := b; console := console w; objectIds := objectIds w |}.

Inductive Outcome (A : Type) :=
| Returned (a : A)
| Thrown (e : Exn).
Arguments Returned {A} a.
Arguments Thrown {A} e.

(** Computations that read and write the world and may throw; what was
    written before a throw stays written. *)
Definition M (A : Type) : Type := World -> Outcome A * World.

Definition ret {A} (a : A) : M A := fun w => (Returned a, w).

Definition throw {A} (e : Exn) : M A := fun w => (Thrown e, w).

Definition bind {A B} (m : M A) (k : A -> M B) : M B :=
  fun w => match m w with
           | (Returned a, w') => k a w'
           | (Thrown e, w') => (Thrown e, w')
           end.

Definition try_catch {A} (m : M A) (h : Exn -> M A) : M A :=
  fun w => match m w with
           | (Returned a, w') => (Returned a, w')
           | (Thrown e, w') => h e w'
           end.

Definition lift {A} (r : Exn + A) : M A :=
  match r with
  | inl e => throw e
  | inr a => ret a
  end.

Declare Scope js_scope.
Delimit Scope js_scope with js.
Notation "x <- m ;; k" := (bind m (fun x => k))
  (at level 100, m at next level, right associativity) : js_scope.
Notation "m ;;; k" := (bind m (fun _ => k))
  (at level 100, right associativity) : js_scope.
Local Open Scope js_scope.

Definition console_log (args : list LogArg) : M unit :=
  fun w => (Returned tt,
            {| db := db w; dbBudget := dbBudget w;
               console := console w ++ [args]; objectIds := objectIds w |}).

Definition MongooseError : Exn :=
  {| exn_name := "MongooseError"; exn_message := "connection lost" |}.

(** One awaited database call: it throws once the budget is used up,
    otherwise it runs against the database. *)
Definition dbCall {A} (f : Db -> A * Db) : M A :=
  fun w => match dbBudget w with
           | Some O => (Thrown MongooseError, w)
           | Some (S n) =>
               let (a, d) := f (db w) in (Returned a, with_db d (with_dbBudget (Some n) w))
           | None =>
               let (a, d) := f (db w) in (Returned a, with_db d w)
           end.

Definition dbRead {A} (f : Db -> A) : M A := dbCall (fun d => (f d, d)).
Definition dbWrite (f : Db -> Db) : M unit := dbCall (fun d => (tt, f d)).

(** ** Model statics used by the controller *)

Definition has_course_id (i : ObjectId) (c : Course) : bool := String.eqb (course_id c) i.
Definition has_user_id (i : ObjectId) (u : User) : bool := String.eqb (user_id u) i.
Definition has_purchase_id (i : ObjectId) (p : CoursePurchase) : bool :=
  String.eqb (purchase_id p) i.

Definition has_paymentId (i : string) (p : CoursePurchase) : bool :=
  match paymentId p with
  | Some j => String.eqb j i
  | None => false
  end.

Definition has_user_course (u c : ObjectId) (p : CoursePurchase) : bool :=
  String.eqb (userId p) u && String.eqb (courseId p) c.

Definition has_status (s : string) (p : CoursePurchase) : bool := String.eqb (status p) s.

(** [Course.findById(id)] *)
Definition Course_findById (i : ObjectId) : M (option Course) :=
  dbRead (fun d => findOne (has_course_id i) (Courses d)).

(** A course with its [creator] and [lectures] paths populated; lecture
    references with no document are dropped, a missing creator is null. *)
Record CourseDetail := {
  detail_course : Course;
  detail_creator : option User;
  detail_lectures : list Lecture;
}.

Definition populate_lectures (d : Db) (ids : list ObjectId) : list Lecture :=
  List.flat_map
    (fun i => match findOne (fun l => String.eqb (lecture_id l) i) (Lectures d) with
              | Some l => [l]
              | None => []
              end) ids.

Definition populate_course (d : Db) (c : Course) : CourseDetail :=
  {| detail_course := c;
     detail_creator := findOne (has_user_id (creator c)) (Users d);
     detail_lectures := populate_lectures d (lectures c) |}.

(** [Course.findById(id).populate({path: "creator"}).populate({path: "lectures"})] *)
Definition Course_findById_populated (i : ObjectId) : M (option CourseDetail) :=
  dbRead (fun d => option_map (populate_course d) (findOne (has_course_id i) (Courses d))).

(** A purchase with its [courseId] path populated: the referenced course,
    or null when there is none. *)
Definition PopulatedPurchase : Type := CoursePurchase * option Course.

Definition populate_courseId (d : Db) (p : CoursePurchase) : PopulatedPurchase :=
  (p, findOne (has_course_id (courseId p)) (Courses d)).

(** [CoursePurchase.findOne({paymentId}).populate({path: "courseId"})] *)
Definition CoursePurchase_findOne_paymentId_populated (i : string)
  : M (option PopulatedPurchase) :=
  dbRead (fun d => option_map (populate_courseId d)
                     (findOne (has_paymentId i) (CoursePurchases d))).

(** [CoursePurchase.findOne({userId, courseId})] *)
Definition CoursePurchase_findOne_user_course (u c : ObjectId) : M (option CoursePurchase) :=
  dbRead (fun d => findOne (has_user_course u c) (CoursePurchases d)).

(** [CoursePurchase.find({status}).populate("courseId")] *)
Definition CoursePurchase_find_status_populated (s : string) : M (list PopulatedPurchase) :=
  dbRead (fun d => List.map (populate_courseId d)
                     (List.filter (has_status s) (CoursePurchases d))).

(** [CoursePurchase.findOneAndDelete({paymentId})] *)
Definition CoursePurchase_findOneAndDelete_paymentId (i : string) : M unit :=
  dbWrite (fun d =>
    {| Courses := Courses d; Lectures := Lectures d; Users := Users d;
       CoursePurchases := findOneAndDelete (has_paymentId i) (CoursePurchases d) |}).

(** [doc.save()] on a document built with [new CoursePurchase(...)]: it is
    inserted at the end of the collection. *)
Definition CoursePurchase_save_new (p : CoursePurchase) : M unit :=
  dbWrite (fun d =>
    {| Courses := Courses d; Lectures := Lectures d; Users := Users d;
       CoursePurchases := CoursePurchases d ++ [p] |}).

(** [doc.save()] on a document obtained from a query: the stored document
    with its [_id] takes the document's fields. *)
Definition CoursePurchase_save (p : CoursePurchase) : M unit :=
  dbWrite (fun d =>
    {| Courses := Courses d; Lectures := Lectures d; Users := Users d;
       CoursePurchases :=
         updateOne (has_purchase_id (purchase_id p)) (fun _ => p) (CoursePurchases d) |}).

(** [Lecture.updateMany({_id: {$in: ids}}, {$set: {isPreviewFree: true}})] *)
Definition Lecture_updateMany_in_set_isPreviewFree (ids : list ObjectId) : M unit :=
  dbWrite (fun d =>
    {| Courses := Courses d;
       Lectures := updateMany (fun l => op_in (lecture_id l) ids)
                              (set_isPreviewFree true) (Lectures d);
       Users := Users d; CoursePurchases := CoursePurchases d |}).

(** [User.findByIdAndUpdate(id, {$addToSet: {enrolledCourses: c}}, {new: true})] *)
Definition User_findByIdAndUpdate_addToSet_enrolledCourses (i c : ObjectId) : M unit :=
  dbWrite (fun d =>
    {| Courses := Courses d; Lectures := Lectures d;
       Users := updateOne (has_user_id i) (set_enrolledCourses (addToSet c)) (Users d);
       CoursePurchases := CoursePurchases d |}).

(** [Course.findByIdAndUpdate(id, {$addToSet: {enrolledStudents: u}}, {new: true})] *)
Definition Course_findByIdAndUpdate_addToSet_enrolledStudents (i u : ObjectId) : M unit :=
  dbWrite (fun d =>
    {| Courses := updateOne (has_course_id i) (set_enrolledStudents (addToSet u)) (Courses d);
       Lectures := Lectures d; Users := Users d; CoursePurchases := CoursePurchases d |}).

(** ** The payment provider and the rest of the runtime *)

(** A Checkout Session as the provider reports it: the fields the
    controller reads.  [url] and [amount_total] are nullable. *)
Record CheckoutSession := {
  session_id : string;
  session_url : option string;
  amount_total : option number;
}.

Record StripeEvent := {
  event_type : string;
  event_data_object : CheckoutSession;
}.

(** The argument of [stripe.checkout.sessions.create]. *)
Record SessionParams := {
  payment_method_types : list string;
  price_currency : string;
  product_name : string;
  product_images : list string;
  unit_amount : number;
  quantity : Z;
  mode : string;
  success_url : string;
  cancel_url : string;
  metadata_courseId : ObjectId;
  metadata_userId : ObjectId;
  allowed_countries : list string;
}.

(** The provider client [stripe]: an external collaborator, kept abstract.
    A secret is [None] when the environment variable is not set. *)
Record Stripe := {
  checkout_sessions_create : SessionParams -> Exn + CheckoutSession;
  webhooks_generateTestHeaderString : string -> option string -> Exn + string;
  webhooks_constructEvent : string -> string -> option string -> Exn + StripeEvent;
}.

(** A parsed request body. *)
#[local] Unset Elimination Schemes.
Inductive Json :=
| JNull
| JBool (b : bool)
| JNumber (x : number)
| JString (s : string)
| JArray (l : list Json)
| JObject (l : list (string * Json)).
#[local] Set Elimination Schemes.

Record Runtime := {
  stripe : Stripe;
  WEBHOOK_ENDPOINT_SECRET : option string;
  JSON_stringify : Json -> string;
  newObjectId : nat -> ObjectId;
}.

(** ** Requests and responses *)

Record CheckoutRequest := {
  checkout_req_id : ObjectId;
  checkout_body_courseId : ObjectId;
}.

Record WebhookRequest := {
  webhook_body : Json;
  webhook_headers : list (string * string);
}.

Record DetailRequest := {
  detail_req_id : ObjectId;
  detail_params_courseId : ObjectId;
}.

Inductive ResBody :=
| JsonMessage (message : string)
| JsonSuccessMessage (success : bool) (message : string)
| JsonSuccessUrl (success : bool) (url : string)
| JsonCoursePurchased (course : CourseDetail) (purchased : bool)
| JsonPurchasedCourse (purchasedCourse : list PopulatedPurchase)
| SendText (text : string)
| SendEmpty.

Record Response := {
  statusCode : nat;
  resBody : ResBody;
}.

(** What a handler leaves behind: the response it sent, if it sent one. *)
Definition Handler := M (option Response).

Definition respond (code : nat) (b : ResBody) : M (option Response) :=
  ret (Some {| statusCode := code; resBody := b |}).

(** ** createCheckoutSession *)

(** [(course.coursePrice / 3.32).toFixed(2) * 100] *)
Definition convertedPrice (price : number) : number :=
  mul (toFixed2_toNumber (div price (of_ratio 332 100))) (of_Z 100).

(** [new CoursePurchase({courseId, userId, amount, status})]: the document
    gets a generated [_id] and no [paymentId] yet. *)
Definition new_CoursePurchase (rt : Runtime) (c u : ObjectId) (a : number) (s : string)
  : M CoursePurchase :=
  fun w => (Returned {| purchase_id := newObjectId rt (objectIds w);
                        courseId := c; userId := u; amount := a; status := s;
                        paymentId := None |},
            {| db := db w; dbBudget := dbBudget w; console := console w;
               objectIds := S (objectIds w) |}).

Definition checkout_params (course : Course) (c u : ObjectId) : SessionParams :=
  {| payment_method_types := ["card"];
     price_currency := "eur";
     product_name := courseTitle course;
     product_images := [courseThumbnail course];
     unit_amount := convertedPrice (coursePrice course);
     quantity := 1;
     mode := "payment";
     success_url := "http://localhost:5173/course-progress/" ++ c;
     cancel_url := "http://localhost:5173/course-detail/" ++ c;
     metadata_courseId := c;
     metadata_userId := u;
     allowed_countries := ["FR"; "US"; "IT"; "DE"] |}.

(** ToBoolean on a nullable string: null and the empty string are falsy. *)
Definition truthy_string (s : option string) : option string :=
  match s with
  | Some "" => None
  | _ => s
  end.

Definition createCheckoutSession (rt : Runtime) (req : CheckoutRequest) : Handler :=
  try_catch
    (let userId := checkout_req_id req in
     let courseId := checkout_body_courseId req in
     course <- Course_findById courseId ;;
     match course with
     | None => respond 404 (JsonMessage "Course not found!")
     | Some course =>
         newPurchase <- new_CoursePurchase rt courseId userId (coursePrice course) "pending" ;;
         session <- lift (checkout_sessions_create (stripe rt)
                            (checkout_params course courseId userId)) ;;
         match truthy_string (session_url session) with
         | None => respond 400 (JsonSuccessMessage false "Error while creating session")
         | Some url =>
             let newPurchase := set_paymentId (session_id session) newPurchase in
             CoursePurchase_save_new newPurchase ;;;
             respond 200 (JsonSuccessUrl true url)
         end
     end)
    (fun error =>
       console_log [LogError error] ;;;
       respond 500 (JsonSuccessMessage false "Server error")).

(** ** stripeWebhook *)

(** The first [try] block: the handler signs the serialized body itself
    and has the provider client check that signature. *)
Definition constructVerifiedEvent (rt : Runtime) (req : WebhookRequest) : M StripeEvent :=
  let payloadString := JSON_stringify rt (webhook_body req) in
  let secret := WEBHOOK_ENDPOINT_SECRET rt in
  header <- lift (webhooks_generateTestHeaderString (stripe rt) payloadString secret) ;;
  lift (webhooks_constructEvent (stripe rt) payloadString header secret).

(** ToBoolean on a nullable Number. *)
Definition truthy_number (x : option number) : option number :=
  match x with
  | Some v => if truthy v then Some v else None
  | None => None
  end.

Definition TypeError_reading (prop : string) : Exn :=
  {| exn_name := "TypeError";
     exn_message := "Cannot read properties of null (reading '" ++ prop ++ "')" |}.

(** [purchase.courseId._id] on a populated purchase. *)
Definition populated_course_id (c : option Course) : M ObjectId :=
  match c with
  | Some c => ret (course_id c)
  | None => throw (TypeError_reading "_id")
  end.

(** [if (session.amount_total) { purchase.amount = session.amount_total / 100; }
    purchase.status = "completed";] *)
Definition settle (session : CheckoutSession) (purchase : CoursePurchase) : CoursePurchase :=
  let purchase :=
    match truthy_number (amount_total session) with
    | Some total => set_amount (div total (of_Z 100)) purchase
    | None => purchase
    end in
  set_status "completed" purchase.

Definition on_checkout_session_completed (event : StripeEvent) : Handler :=
  console_log [LogText "Checkout session completed event received."] ;;;
  let session := event_data_object event in
  found <- CoursePurchase_findOne_paymentId_populated (session_id session) ;;
  match found with
  | None =>
      console_log [LogText "Purchase not found for session:";
                   LogText (session_id session)] ;;;
      respond 404 (JsonMessage "Purchase not found")
  | Some (purchase, course) =>
      let purchase := settle session purchase in
      match course with
      | Some c =>
          if (0 <? List.length (lectures c))%nat
          then Lecture_updateMany_in_set_isPreviewFree (lectures c)
          else ret tt
      | None => ret tt
      end ;;;
      CoursePurchase_save purchase ;;;
      enrolled <- populated_course_id course ;;
      User_findByIdAndUpdate_addToSet_enrolledCourses (userId purchase) enrolled ;;;
      target <- populated_course_id course ;;
      Course_findByIdAndUpdate_addToSet_enrolledStudents target (userId purchase) ;;;
      respond 200 SendEmpty
  end.

Definition on_checkout_session_expired (event : StripeEvent) : Handler :=
  console_log [LogText "Checkout session expired event received."] ;;;
  let expiredSession := event_data_object event in
  CoursePurchase_findOneAndDelete_paymentId (session_id expiredSession) ;;;
  console_log [LogText "Pending purchase removed for expired session:";
               LogText (session_id expiredSession)] ;;;
  respond 200 SendEmpty.

(** The [switch] on the event type and what follows it. *)
Definition dispatchEvent (event : StripeEvent) : Handler :=
  if String.eqb (event_type event) "checkout.session.completed"
  then on_checkout_session_completed event
  else if String.eqb (event_type event) "checkout.session.expired"
  then on_checkout_session_expired event
  else
    console_log [LogText ("Unhandled event type: " ++ event_type event)] ;;;
    respond 200 SendEmpty.

Definition stripeWebhook (rt : Runtime) (req : WebhookRequest) : Handler :=
  verified <-
    try_catch
      (event <- constructVerifiedEvent rt req ;; ret (inr event))
      (fun error =>
         console_log [LogText "Webhook error:"; LogText (exn_message error)] ;;;
         ret (inl {| statusCode := 400;
                     resBody := SendText ("Webhook error: " ++ exn_message error) |})) ;;
  match verified with
  | inl response => ret (Some response)
  | inr event =>
      try_catch
        (dispatchEvent event)
        (fun error =>
           console_log [LogText "Error handling webhook event:"; LogError error] ;;;
           respond 500 (JsonMessage "Internal Server Error"))
  end.

(** ** Status queries *)

(** The [try] block of [getCourseDetailWithPurchaseStatus]. *)
Definition getCourseDetailWithPurchaseStatus_try (req : DetailRequest) : Handler :=
  let courseId := detail_params_courseId req in
  let userId := detail_req_id req in
  course <- Course_findById_populated courseId ;;
  purchased <- CoursePurchase_findOne_user_course userId courseId ;;
  console_log [LogPurchase purchased] ;;;
  match course with
  | None => respond 404 (JsonMessage "course not found!")
  | Some course =>
      respond 200 (JsonCoursePurchased course
                     (match purchased with Some _ => true | None => false end))
  end.

Definition getCourseDetailWithPurchaseStatus (req : DetailRequest) : Handler :=
  try_catch
    (getCourseDetailWithPurchaseStatus_try req)
    (fun error => console_log [LogError error] ;;; ret None).

(** ToBoolean on an array: every array is truthy. *)
Definition truthy_array {A} (l : list A) : bool := true.

(** The [try] block of [getAllPurchasedCourse]. *)
Definition getAllPurchasedCourse_try : Handler :=
  purchasedCourse <- CoursePurchase_find_status_populated "completed" ;;
  if negb (truthy_array purchasedCourse)
  then respond 404 (JsonPurchasedCourse [])
  else respond 200 (JsonPurchasedCourse purchasedCourse).

Definition getAllPurchasedCourse : Handler :=
  try_catch
    getAllPurchasedCourse_try
    (fun error => console_log [LogError error] ;;; ret None).

(** The event a request is verified as, when verification succeeds. *)
Definition verified_as (rt : Runtime) (req : WebhookRequest) (event : StripeEvent) : Prop :=
  forall w, constructVerifiedEvent rt req w = (Returned event, w).

(** A handler's responses all satisfy [P]. *)
Definition responds_with (P : Response -> Prop) (m : Handler) : Prop :=
  forall w r w', m w = (Returned (Some r), w') -> P r.

(** The plain acknowledgement, [res.status(200).send()]. *)
Definition ok_empty : Outcome (option Response) :=
  Returned (Some {| statusCode := 200; resBody := SendEmpty |}).

(** ** The database after a completed session

    What the writes of the completed-session branch add up to when all of
    them succeed, for the purchase as it is saved and the course it was
    populated with; and what is written when the populated course is
    null, where the branch throws after saving the purchase. *)

Definition saved_purchases (p : CoursePurchase) (d : Db) : list CoursePurchase :=
  updateOne (has_purchase_id (purchase_id p)) (fun _ => p) (CoursePurchases d).

Definition db_enrolled (p : CoursePurchase) (c : Course) (d : Db) : Db :=
  {| Courses := updateOne (has_course_id (course_id c))
                  (set_enrolledStudents (addToSet (userId p))) (Courses d);
     Lectures := if (0 <? List.length (lectures c))%nat
                 then updateMany (fun l => op_in (lecture_id l) (lectures c))
                        (set_isPreviewFree true) (Lectures d)
                 else Lectures d;
     Users := updateOne (has_user_id (userId p))
                (set_enrolledCourses (addToSet (course_id c))) (Users d);
     CoursePurchases := saved_purchases p d |}.

Definition db_saved (p : CoursePurchase) (d : Db) : Db :=
  {| Courses := Courses d; Lectures := Lectures d; Users := Users d;
     CoursePurchases := saved_purchases p d |}.

(** ** What a handler may do to the database, and whether it answers *)

(** Every run of [m] takes the database to one related to it by [R]. *)
Definition keeps (R : Db -> Db -> Prop) {A} (m : M A) : Prop :=
  forall w, R (db w) (db (snd (m w))).

(** [m] never completes without a response: when it returns, it has sent
    a response satisfying [P]. *)
Definition answers (P : Response -> Prop) (m : Handler) : Prop :=
  forall w, match fst (m w) with
            | Returned (Some r) => P r
            | Returned None => False
            | Thrown _ => True
            end.

(** [m] neither throws nor stays silent. *)
Definition surely_answers (P : Response -> Prop) (m : Handler) : Prop :=
  forall w, match fst (m w) with
            | Returned (Some r) => P r
            | _ => False
            end.

(** The status codes the controller uses. *)
Definition known_status (r : Response) : Prop :=
  statusCode r = 200 \/ statusCode r = 400 \/ statusCode r = 404 \/ statusCode r = 500.

(** A course, lecture or user document after the webhook: the same
    document, with at least the students (courses) enrolled before, and
    still visible if it was. *)
Definition course_grows (c c' : Course) : Prop :=
  course_id c' = course_id c /\ courseTitle c' = courseTitle c
  /\ courseThumbnail c' = courseThumbnail c /\ coursePrice c' = coursePrice c
  /\ creator c' = creator c /\ lectures c' = lectures c
  /\ incl (enrolledStudents c) (enrolledStudents c').

Definition lecture_grows (l l' : Lecture) : Prop :=
  lecture_id l' = lecture_id l /\ (isPreviewFree l = true -> isPreviewFree l' = true).

Definition user_grows (u u' : User) : Prop :=
  user_id u' = user_id u /\ incl (enrolledCourses u) (enrolledCourses u').

Definition db_grows (d d' : Db) : Prop :=
  Forall2 course_grows (Courses d) (Courses d')
  /\ Forall2 lecture_grows (Lectures d) (Lectures d')
  /\ Forall2 user_grows (Users d) (Users d')
  /\ incl (List.map purchase_id (CoursePurchases d')) (List.map purchase_id (CoursePurchases d))
  /\ (List.length (CoursePurchases d') <= List.length (CoursePurchases d))%nat.

(** The database after the first [j] writes of the completed-session
    branch, in the order the branch makes them: lectures, purchase, user,
    course. *)
Definition partial_db (p : CoursePurchase) (c : Course) (j : nat) (d : Db) : Db :=
  {| Courses := if (4 <=? j)%nat then Courses (db_enrolled p c d) else Courses d;
     Lectures := if (1 <=? j)%nat then Lectures (db_enrolled p c d) else Lectures d;
     Users := if (3 <=? j)%nat then Users (db_enrolled p c d) else Users d;
     CoursePurchases := if (2 <=? j)%nat then saved_purchases p d else CoursePurchases d |}.

(** ** Sample data

    A small database and a provider client with fixed answers, used to
    evaluate the handlers on concrete requests. *)

Definition sample_course : Course :=
  {| course_id := "c1"; courseTitle := "Rocq"; courseThumbnail := "rocq.png";
     coursePrice := of_ratio 332 10; creator := "u0";
     lectures := ["l1"; "l2"]; enrolledStudents := [] |}.

Definition sample_purchase : CoursePurchase :=
  {| purchase_id := "p1"; courseId := "c1"; userId := "u1";
     amount := of_ratio 332 10; status := "pending"; paymentId := Some "cs_1" |}.

Definition sample_db : Db :=
  {| Courses := [sample_course];
     Lectures := [ {| lecture_id := "l1"; isPreviewFree := false |};
                   {| lecture_id := "l2"; isPreviewFree := false |};
                   {| lecture_id := "l9"; isPreviewFree := false |} ];
     Users := [ {| user_id := "u0"; enrolledCourses := [] |};
                {| user_id := "u1"; enrolledCourses := [] |} ];
     CoursePurchases := [sample_purchase] |}.

Definition sample_world (budget : option nat) : World :=
  {| db := sample_db; dbBudget := budget; console := []; objectIds := 0 |}.

Definition sample_session (url : option string) (total : option number) : CheckoutSession :=
  {| session_id := "cs_1"; session_url := url; amount_total := total |}.

Definition sample_event (type : string) (total : option number) : StripeEvent :=
  {| event_type := type; event_data_object := sample_session None total |}.

(** A client that answers every session request with [s] and accepts
    every payload as the event [ev]. *)
Definition stripe_answering (s : CheckoutSession) (ev : StripeEvent) : Stripe :=
  {| checkout_sessions_create := fun _ => inr s;
     webhooks_generateTestHeaderString := fun _ _ => inr "t=0,v1=0";
     webhooks_constructEvent := fun _ _ _ => inr ev |}.

Definition sample_runtime (s : CheckoutSession) (ev : StripeEvent) : Runtime :=
  {| stripe := stripe_answering s ev;
     WEBHOOK_ENDPOINT_SECRET := Some "whsec";
     JSON_stringify := fun _ => "{}";
     newObjectId := fun _ => "p2" |}.

Definition sample_webhook_request : WebhookRequest :=
  {| webhook_body := JObject []; webhook_headers := [] |}.

(** The runtime that delivers a "checkout.session.completed" event with
    the given reported total. *)
Definition completed_runtime (total : option number) : Runtime :=
  sample_runtime (sample_session None None)
    (sample_event "checkout.session.completed" total).

Definition expired_runtime : Runtime :=
  sample_runtime (sample_session None None) (sample_event "checkout.session.expired" None).

Definition other_runtime : Runtime :=
  sample_runtime (sample_session None None) (sample_event "payment_intent.succeeded" None).

Definition checkout_runtime : Runtime :=
  sample_runtime (sample_session (Some "https://checkout.stripe.com/c/pay/cs_1") None)
    (sample_event "checkout.session.expired" None).

Definition sample_user : User := {| user_id := "u1"; enrolledCourses := [] |}.

Definition sample_checkout_request : CheckoutRequest :=
  {| checkout_req_id := "u1"; checkout_body_courseId := "c1" |}.

Definition sample_detail_request : DetailRequest :=
  {| detail_req_id := "u1"; detail_params_courseId := "c1" |}.

(** A client whose signing step throws when no secret is configured. *)
Definition stripe_requiring_secret (ev : StripeEvent) : Stripe :=
  {| checkout_sessions_create := fun _ => inr (sample_session None None);
     webhooks_generateTestHeaderString :=
       fun _ secret =>
         match secret with
         | Some _ => inr "t=0,v1=0"
         | None => inl {| exn_name := "TypeError";
                          exn_message := "The key argument must be of type string" |}
         end;
     webhooks_constructEvent := fun _ _ _ => inr ev |}.

Definition unconfigured_runtime : Runtime :=
  {| stripe := stripe_requiring_secret (sample_event "checkout.session.completed" None);
     WEBHOOK_ENDPOINT_SECRET := None;
     JSON_stringify := fun _ => "{}";
     newObjectId := fun _ => "p2" |}.

(** A completed session no purchase was recorded for. *)
Definition unknown_session_event : StripeEvent :=
  {| event_type := "checkout.session.completed";
     event_data_object := {| session_id := "cs_404"; session_url := None;
                             amount_total := Some (of_Z 1000) |} |}.

Definition unknown_session_runtime : Runtime :=
  sample_runtime (sample_session None None) unknown_session_event.

(** A database whose only purchase refers to a course that is gone. *)
Definition orphan_purchase : CoursePurchase :=
  {| purchase_id := "p1"; courseId := "c9"; userId := "u1";
     amount := of_ratio 332 10; status := "pending"; paymentId := Some "cs_1" |}.

Definition orphan_db : Db :=
  {| Courses := Courses sample_db; Lectures := Lectures sample_db;
     Users := Users sample_db; CoursePurchases := [orphan_purchase] |}.

Definition orphan_world : World :=
  {| db := orphan_db; dbBudget := None; console := []; objectIds := 0 |}.

(** The purchase [createCheckoutSession] saves on its success path: the
    document built by [new CoursePurchase] when [n] identifiers had been
    generated, with the session id as its paymentId. *)
Definition checkout_purchase (rt : Runtime) (n : nat) (req : CheckoutRequest)
    (course : Course) (session : CheckoutSession) : CoursePurchase :=
  {| purchase_id := newObjectId rt n;
     courseId := checkout_body_courseId req;
     userId := checkout_req_id req;
     amount := coursePrice course;
     status := "pending";
     paymentId := Some (session_id session) |}.

(** The sample database before any purchase, and a runtime whose provider
    creates session "cs_1" with a URL and later delivers an event of the
    given type for it. *)
Definition fresh_db : Db :=
  {| Courses := Courses sample_db; Lectures := Lectures sample_db;
     Users := Users sample_db; CoursePurchases := [] |}.

Definition fresh_world : World :=
  {| db := fresh_db; dbBudget := None; console := []; objectIds := 0 |}.

Definition flow_session : CheckoutSession :=
  sample_session (Some "https://checkout.stripe.com/c/pay/cs_1") None.

Definition flow_runtime (type : string) : Runtime :=
  sample_runtime flow_session (sample_event type (Some (of_Z 1000))).

(** A runtime whose provider first reports session "cs_1" completed (for
    the body [null]) and then expired (for any other body). *)
Definition replay_runtime : Runtime :=
  {| stripe :=
       {| checkout_sessions_create := fun _ => inr flow_session;
          webhooks_generateTestHeaderString := fun _ _ => inr "t=0,v1=0";
          webhooks_constructEvent :=
            fun payload _ _ =>
              if String.eqb payload "null"
              then inr (sample_event "checkout.session.completed" (Some (of_Z 1000)))
              else inr (sample_event "checkout.session.expired" None) |};
     WEBHOOK_ENDPOINT_SECRET := Some "whsec";
     JSON_stringify := fun body => match body with JNull => "null" | _ => "{}" end;
     newObjectId := fun _ => "p2" |}.

Definition null_webhook_request : WebhookRequest :=
  {| webhook_body := JNull; webhook_headers := [] |}.

(** ** The rounded amount the specification asks for *)

(** Follows the specification's wording, [round((price / 3.32) * 100)],
    with [Math.round] and Number arithmetic; compared below with
    [convertedPrice], which follows the code. *)
Definition spec_minor_units (price : number) : number :=
  round (mul (div price (of_ratio 332 100)) (of_Z 100)).

(** The whole-number course prices up to 200 at which [convertedPrice] is
    not a whole number of cents. *)
Definition fractional_whole_prices : list nat :=
  [15; 27; 30; 57; 62; 65; 107; 110; 112; 114; 119; 121; 123; 126; 128; 130; 135]%nat.

(** The check behind that list, for one price. *)
Definition whole_price_checked (n : nat) : bool :=
  let amount := convertedPrice (of_Z (Z.of_nat n)) in
  if List.existsb (Nat.eqb n) fractional_whole_prices
  then negb (is_integer amount)
  else is_integer amount
       && match amount, spec_minor_units (of_Z (Z.of_nat n)) with
          | S754_finite s1 m1 e1, S754_finite s2 m2 e2 =>
              Bool.eqb s1 s2 && Pos.eqb m1 m2 && Z.eqb e1 e2
          | _, _ => false
          end.

(** ** The provider's webhook signing scheme

    The provider SDK is an external dependency of the controller; its
    source is not part of the repository.  What follows models the
    signing scheme the provider documents for its webhooks, which the
    SDK's [generateTestHeaderString] and [constructEvent] implement: the
    header is [t=<timestamp>,v1=<signature>], the signature is the
    HMAC-SHA256, under the endpoint secret, of the timestamp, a dot and
    the payload, and verification recomputes it from the header's
    timestamp, compares, checks the timestamp against a tolerance of 300
    seconds and parses the payload.  The HMAC, [JSON.parse], the clock
    and the session endpoint are parameters. *)

(** [String(n)] and [parseInt(s, 10)] on non-negative integers; a string
    that is not a decimal numeral has no timestamp to offer. *)
Definition number_to_string (n : N) : string :=
  NilZero.string_of_uint (N.to_uint n).

Definition parseInt (s : string) : option N :=
  option_map N.of_uint (NilZero.uint_of_string s).

(** [s.split(c)] *)
Fixpoint split_on (c : ascii) (s : string) : list string :=
  match s with
  | EmptyString => [EmptyString]
  | String a s' =>
      if Ascii.eqb a c then EmptyString :: split_on c s'
      else match split_on c s' with
           | x :: xs => String a x :: xs
           | [] => [String a EmptyString]
           end
  end.

(** What [parseHeader] collects: the timestamp of the last [t] item, if it
    is a number, and the values of the items of the expected scheme. *)
Record HeaderDetails := {
  header_timestamp : option N;
  header_signatures : list (option string);
}.

Definition parseHeader_item (scheme : string) (accum : HeaderDetails) (item : string)
  : HeaderDetails :=
  let kv := split_on "=" item in
  let accum :=
    if String.eqb (List.hd "" kv) "t"
    then {| header_timestamp := match List.nth_error kv 1 with
                                | Some v => parseInt v
                                | None => None
                                end;
            header_signatures := header_signatures accum |}
    else accum in
  if String.eqb (List.hd "" kv) scheme
  then {| header_timestamp := header_timestamp accum;
          header_signatures := (header_signatures accum ++ [List.nth_error kv 1])%list |}
  else accum.

Definition parseHeader (header scheme : string) : HeaderDetails :=
  List.fold_left (parseHeader_item scheme) (split_on "," header)
    {| header_timestamp := None; header_signatures := [] |}.

(** The parameters of the SDK model: the crypto provider's
    [computeHMACSignature payload secret], [JSON.parse] on event
    payloads, the clock in seconds at the signing and at the verifying
    call, and the session endpoint. *)
Record SdkEnv := {
  computeHMACSignature : string -> string -> string;
  JSON_parse : string -> option StripeEvent;
  now_signing : N;
  now_verifying : N;
  sessions_create : SessionParams -> Exn + CheckoutSession;
}.

Definition DEFAULT_TOLERANCE : N := 300.

Definition StripeSignatureVerificationError (message : string) : Exn :=
  {| exn_name := "StripeSignatureVerificationError"; exn_message := message |}.

Definition missing_key_error : Exn :=
  {| exn_name := "TypeError"; exn_message := "The key argument must be of type string" |}.

(** [stripe.webhooks.generateTestHeaderString({payload, secret})] *)
Definition sdk_generateTestHeaderString (env : SdkEnv) (payload : string)
    (secret : option string) : Exn + string :=
  match secret with
  | None => inl missing_key_error
  | Some key =>
      let timestamp := number_to_string (now_signing env) in
      inr ("t=" ++ timestamp ++ ",v1="
           ++ computeHMACSignature env (timestamp ++ "." ++ payload) key)
  end.

(** [stripe.webhooks.constructEvent(payload, header, secret)] *)
Definition sdk_constructEvent (env : SdkEnv) (payload header : string)
    (secret : option string) : Exn + StripeEvent :=
  if String.eqb payload ""
  then inl (StripeSignatureVerificationError "No webhook payload was provided.")
  else if String.eqb header ""
  then inl (StripeSignatureVerificationError
              "No stripe-signature header value was provided.")
  else
    let details := parseHeader header "v1" in
    match header_timestamp details, header_signatures details with
    | None, _ =>
        inl (StripeSignatureVerificationError
               "Unable to extract timestamp and signatures from header")
    | Some _, [] =>
        inl (StripeSignatureVerificationError "No signatures found with expected scheme")
    | Some timestamp, signatures =>
        match secret with
        | None => inl missing_key_error
        | Some key =>
            let expected :=
              computeHMACSignature env (number_to_string timestamp ++ "." ++ payload) key in
            if negb (List.existsb
                       (fun s => match s with
                                 | Some s => String.eqb expected s
                                 | None => false
                                 end) signatures)
            then inl (StripeSignatureVerificationError
                        "No signatures found matching the expected signature for payload.")
            else if (timestamp + DEFAULT_TOLERANCE <? now_verifying env)%N
            then inl (StripeSignatureVerificationError "Timestamp outside the tolerance zone")
            else match JSON_parse env payload with
                 | Some event => inr event
                 | None => inl {| exn_name := "SyntaxError";
                                  exn_message := "Unexpected token in JSON" |}
                 end
        end
    end.

Definition stripe_sdk (env : SdkEnv) : Stripe :=
  {| checkout_sessions_create := sessions_create env;
     webhooks_generateTestHeaderString := sdk_generateTestHeaderString env;
     webhooks_constructEvent := sdk_constructEvent env |}.

(** A hexadecimal digest, as HMAC signatures are rendered. *)
Definition is_hex (a : ascii) : bool :=
  List.existsb (Ascii.eqb a) (list_ascii_of_string "0123456789abcdef").

Fixpoint hex_digest (s : string) : bool :=
  match s with
  | EmptyString => true
  | String a s' => is_hex a && hex_digest s'
  end.

(** [c] does not occur in [s]. *)
Fixpoint free_of (c : ascii) (s : string) : bool :=
  match s with
  | EmptyString => true
  | String a s' => negb (Ascii.eqb a c) && free_of c s'
  end.

(** A clock, a digest and a parser to run the SDK model with. *)
Definition sample_sdk_env : SdkEnv :=
  {| computeHMACSignature := fun _ _ => "5257a869e7ecebeda32affa62cdca3fa";
     JSON_parse := fun payload =>
       if String.eqb payload "{}"
       then Some (sample_event "checkout.session.expired" None)
       else None;
     now_signing := 1700000000;
     now_verifying := 1700000001;
     sessions_create := fun _ => inr (sample_session None None) |}.

Definition sample_sdk_runtime : Runtime :=
  {| stripe := stripe_sdk sample_sdk_env;
     WEBHOOK_ENDPOINT_SECRET := Some "whsec";
     JSON_stringify := fun _ => "{}";
     newObjectId := fun _ => "p2" |}.

(** * Properties *)

(** ** Conversion to minor units *)

Example convertedPrice_33_2 : convertedPrice (of_ratio 332 10) = of_Z 1000.
Proof. vm_compute. reflexivity. Qed.

Example convertedPrice_3_32 : convertedPrice (of_ratio 332 100) = of_Z 100.
Proof. vm_compute. reflexivity. Qed.

(** C1: the unit_amount of the session request is [convertedPrice] of the
    course price; at a course price of 15 it is 451.99999999999994
    (7951668092076031 * 2^-44), which is not an integer and differs from
    round((15 / 3.32) * 100) = 452; at 33.2 it is exactly 1000. *)
Theorem convertedPrice_15_not_rounded :
  (forall course c u,
     unit_amount (checkout_params course c u) = convertedPrice (coursePrice course))
  /\ convertedPrice (of_Z 15) = S754_finite false 7951668092076031 (-44)
  /\ is_integer (convertedPrice (of_Z 15)) = false
  /\ spec_minor_units (of_Z 15) = of_Z 452
  /\ convertedPrice (of_Z 15) <> spec_minor_units (of_Z 15)
  /\ convertedPrice (of_ratio 332 10) = spec_minor_units (of_ratio 332 10)
  /\ convertedPrice (of_ratio 332 10) = of_Z 1000.
Proof.
  split; [reflexivity|].
  repeat split; try (vm_compute; reflexivity).
  vm_compute. discriminate.
Qed.

(** ** Collections *)

Section CollectionFacts.
Context {A : Type}.
Implicit Types (f g : A -> bool) (h : A -> A) (l : list A).

Lemma findOne_In f l x : findOne f l = Some x -> In x l /\ f x = true.
Proof. apply List.find_some. Qed.

Lemma findOne_None f l : findOne f l = None -> forall x, In x l -> f x = false.
Proof. apply List.find_none. Qed.

Lemma findOne_Some_iff f l : (exists x, findOne f l = Some x) <-> (exists x, In x l /\ f x = true).
Proof.
  split.
  - intros [x Hx]. exists x. now apply findOne_In.
  - intros [x [Hin Hfx]]. destruct (findOne f l) as [y|] eqn:E.
    + now exists y.
    + rewrite (findOne_None _ _ E x Hin) in Hfx. discriminate.
Qed.

(** Looking up by the filter that selected the updated document. *)
Lemma findOne_updateOne f h l :
  (forall x, f x = true -> f (h x) = true) ->
  findOne f (updateOne f h l) = option_map h (findOne f l).
Proof.
  intros Hfh. induction l as [|x l IH]; simpl; [reflexivity|].
  destruct (f x) eqn:Ex; simpl.
  - now rewrite (Hfh x Ex).
  - now rewrite Ex.
Qed.

(** Looking up by [f] after the document selected by [g] was replaced:
    the replacement is found as soon as the document that [f] found
    before is one that [g] selects. *)
Lemma findOne_updateOne_replaced f g l p p' :
  findOne f l = Some p -> g p = true -> f p' = true ->
  findOne f (updateOne g (fun _ => p') l) = Some p'.
Proof.
  intros Hfind Hg Hf. induction l as [|x l IH]; simpl in *; [discriminate|].
  destruct (g x) eqn:Egx; simpl.
  - now rewrite Hf.
  - destruct (f x) eqn:Efx.
    + injection Hfind as ->. congruence.
    + now apply IH.
Qed.

Lemma updateOne_idempotent f h l :
  (forall x, f x = true -> f (h x) = true) ->
  (forall x, f x = true -> h (h x) = h x) ->
  updateOne f h (updateOne f h l) = updateOne f h l.
Proof.
  intros Hf Hh. induction l as [|x l IH]; simpl; [reflexivity|].
  destruct (f x) eqn:Ex; simpl.
  - now rewrite (Hf x Ex), (Hh x Ex).
  - now rewrite Ex, IH.
Qed.

Lemma updateMany_idempotent f h l :
  (forall x, f (h x) = f x) ->
  (forall x, h (h x) = h x) ->
  updateMany f h (updateMany f h l) = updateMany f h l.
Proof.
  intros Hf Hh. unfold updateMany. rewrite List.map_map.
  apply List.map_ext. intros x. destruct (f x) eqn:Ex.
  - now rewrite Hf, Ex, Hh.
  - now rewrite Ex.
Qed.

Lemma In_updateOne f h l y :
  In y (updateOne f h l) -> In y l \/ exists x, In x l /\ f x = true /\ y = h x.
Proof.
  induction l as [|x l IH]; simpl; [tauto|].
  destruct (f x) eqn:Ex; simpl.
  - intros [<-|Hy]; [right; exists x; auto | auto].
  - intros [<-|Hy]; [auto|].
    destruct (IH Hy) as [Hin|[z [Hz [Hfz ->]]]]; [auto|].
    right. exists z. auto.
Qed.

(** [findOneAndDelete] takes out exactly the first match. *)
Lemma findOneAndDelete_found f l p :
  findOne f l = Some p ->
  exists l1 l2, l = (l1 ++ p :: l2)%list
                /\ findOneAndDelete f l = (l1 ++ l2)%list
                /\ forall x, In x l1 -> f x = false.
Proof.
  induction l as [|x l IH]; simpl; [discriminate|].
  destruct (f x) eqn:Ex.
  - intros [= ->]. exists [], l. simpl. repeat split. intros ? [].
  - intros Hp. destruct (IH Hp) as (l1 & l2 & -> & Hdel & Hl1).
    exists (x :: l1), l2. simpl. rewrite Hdel. repeat split.
    intros y [<-|Hy]; auto.
Qed.

Lemma findOneAndDelete_missing f l :
  findOne f l = None -> findOneAndDelete f l = l.
Proof.
  induction l as [|x l IH]; simpl; [reflexivity|].
  destruct (f x); [discriminate|]. intros H. now rewrite IH.
Qed.

End CollectionFacts.

Lemma op_in_In i l : op_in i l = true <-> In i l.
Proof.
  unfold op_in. rewrite List.existsb_exists. split.
  - intros [x [Hx E]]. apply String.eqb_eq in E. now subst.
  - intros H. exists i. split; [assumption | apply String.eqb_refl].
Qed.

Lemma addToSet_In i l : In i (addToSet i l).
Proof.
  unfold addToSet. destruct (op_in i l) eqn:E.
  - now apply op_in_In.
  - apply List.in_or_app. right. now left.
Qed.

Lemma addToSet_idempotent i l : addToSet i (addToSet i l) = addToSet i l.
Proof.
  unfold addToSet at 1.
  now rewrite (proj2 (op_in_In i (addToSet i l)) (addToSet_In i l)).
Qed.

Lemma addToSet_NoDup i l : NoDup l -> NoDup (addToSet i l).
Proof.
  intros H. unfold addToSet. destruct (op_in i l) eqn:E; [assumption|].
  apply List.NoDup_app; [assumption | constructor; [intros [] | constructor] |].
  intros x Hx [<-|[]]. apply op_in_In in Hx. congruence.
Qed.

#[local] Arguments settle : simpl never.
#[local] Arguments of_Z : simpl never.
#[local] Arguments div : simpl never.
#[local] Arguments findOne : simpl never.
#[local] Arguments String.eqb : simpl nomatch.

(** Unfolds the monad and the database calls of a handler applied to a
    world and reduces what becomes reducible. *)
Ltac run :=
  unfold try_catch, bind, respond, ret, throw, lift, console_log,
    dbRead, dbWrite, dbCall, with_db, with_dbBudget; simpl.

(** ** Running the webhook handler *)

(** Verification reads the runtime and the request only; the world is
    left as it was. *)
Lemma constructVerifiedEvent_world rt req w :
  snd (constructVerifiedEvent rt req w) = w.
Proof.
  unfold constructVerifiedEvent, bind, lift.
  destruct (webhooks_generateTestHeaderString _ _ _) as [e|header]; simpl; [reflexivity|].
  destruct (webhooks_constructEvent _ _ _ _) as [e|ev]; reflexivity.
Qed.

Lemma stripeWebhook_verified rt req event w :
  verified_as rt req event ->
  stripeWebhook rt req w =
  try_catch (dispatchEvent event)
    (fun error =>
       console_log [LogText "Error handling webhook event:"; LogError error] ;;;
       respond 500 (JsonMessage "Internal Server Error")) w.
Proof.
  intros H. unfold stripeWebhook, bind at 1, try_catch at 1, bind at 1.
  rewrite (H w). reflexivity.
Qed.


Section CompletedSession.
Variables (rt : Runtime) (req : WebhookRequest) (event : StripeEvent).
Hypothesis Hverified : verified_as rt req event.
Hypothesis Htype : event_type event = "checkout.session.completed".

Let session := event_data_object event.

Variables (d : Db) (c : list (list LogArg)) (n : nat).
Let w := {| db := d; dbBudget := None; console := c; objectIds := n |}.

Lemma completed_dispatch :
  stripeWebhook rt req w =
  try_catch (on_checkout_session_completed event)
    (fun error =>
       console_log [LogText "Error handling webhook event:"; LogError error] ;;;
       respond 500 (JsonMessage "Internal Server Error")) w.
Proof.
  rewrite (stripeWebhook_verified _ _ _ _ Hverified).
  unfold dispatchEvent. now rewrite Htype.
Qed.

Lemma completed_not_found :
  findOne (has_paymentId (session_id session)) (CoursePurchases d) = None ->
  exists c',
    stripeWebhook rt req w =
    (Returned (Some {| statusCode := 404; resBody := JsonMessage "Purchase not found" |}),
     {| db := d; dbBudget := None; console := c'; objectIds := n |}).
Proof.
  intros Hnone. rewrite completed_dispatch.
  unfold on_checkout_session_completed, CoursePurchase_findOne_paymentId_populated.
  subst w session. run. rewrite Hnone. simpl. destruct d. eexists. reflexivity.
Qed.

Lemma completed_dangling purchase :
  findOne (has_paymentId (session_id session)) (CoursePurchases d) = Some purchase ->
  findOne (has_course_id (courseId purchase)) (Courses d) = None ->
  exists c',
    stripeWebhook rt req w =
    (Returned (Some {| statusCode := 500; resBody := JsonMessage "Internal Server Error" |}),
     {| db := db_saved (settle session purchase) d;
        dbBudget := None; console := c'; objectIds := n |}).
Proof.
  intros Hp Hc. rewrite completed_dispatch.
  unfold on_checkout_session_completed, CoursePurchase_findOne_paymentId_populated,
    CoursePurchase_save, populated_course_id.
  subst w session. run. rewrite Hp. unfold populate_courseId. simpl. rewrite Hc. simpl.
  eexists. reflexivity.
Qed.

Lemma completed_enrolled purchase course :
  findOne (has_paymentId (session_id session)) (CoursePurchases d) = Some purchase ->
  findOne (has_course_id (courseId purchase)) (Courses d) = Some course ->
  exists c',
    stripeWebhook rt req w =
    (ok_empty,
     {| db := db_enrolled (settle session purchase) course d;
        dbBudget := None; console := c'; objectIds := n |}).
Proof.
  intros Hp Hc. rewrite completed_dispatch.
  unfold on_checkout_session_completed, CoursePurchase_findOne_paymentId_populated,
    CoursePurchase_save, populated_course_id, Lecture_updateMany_in_set_isPreviewFree,
    User_findByIdAndUpdate_addToSet_enrolledCourses,
    Course_findByIdAndUpdate_addToSet_enrolledStudents.
  subst w session. run. rewrite Hp. unfold populate_courseId. simpl. rewrite Hc. simpl.
  unfold db_enrolled, saved_purchases, ok_empty.
  destruct (lectures course) as [|l ls]; run; eexists; reflexivity.
Qed.

End CompletedSession.

Lemma findOne_course_id i l c : findOne (has_course_id i) l = Some c -> course_id c = i.
Proof. intros H. apply findOne_In in H. now apply String.eqb_eq. Qed.

Lemma settle_fields session p :
  purchase_id (settle session p) = purchase_id p
  /\ courseId (settle session p) = courseId p
  /\ userId (settle session p) = userId p
  /\ paymentId (settle session p) = paymentId p
  /\ status (settle session p) = "completed".
Proof. unfold settle. destruct (truthy_number _); repeat split. Qed.

Lemma settle_amount session p :
  amount (settle session p) =
  match amount_total session with
  | Some total => if truthy total then div total (of_Z 100) else amount p
  | None => amount p
  end.
Proof.
  unfold settle, truthy_number. destruct (amount_total session) as [total|]; [|reflexivity].
  destruct (truthy total); reflexivity.
Qed.

Lemma settle_idempotent session p : settle session (settle session p) = settle session p.
Proof. unfold settle. destruct (truthy_number _); reflexivity. Qed.

(** The saved purchase is the one the session identifier finds
    afterwards. *)
Lemma findOne_saved_purchases sid session p d :
  findOne (has_paymentId sid) (CoursePurchases d) = Some p ->
  findOne (has_paymentId sid) (saved_purchases (settle session p) d)
  = Some (settle session p).
Proof.
  intros Hp. unfold saved_purchases.
  destruct (settle_fields session p) as (Hid & _ & _ & Hpay & _).
  apply findOne_updateOne_replaced with (p := p); [assumption | |].
  - rewrite Hid. apply String.eqb_refl.
  - apply findOne_In in Hp. unfold has_paymentId in *. now rewrite Hpay.
Qed.

Lemma updateMany_ids f (h : Lecture -> Lecture) l :
  (forall x, lecture_id (h x) = lecture_id x) ->
  List.map lecture_id (updateMany f h l) = List.map lecture_id l.
Proof.
  intros Hh. unfold updateMany. rewrite List.map_map. apply List.map_ext.
  intros x. destruct (f x); [apply Hh | reflexivity].
Qed.

(** ** Completed sessions *)

(** C2: a verified "checkout.session.completed" event whose session id
    finds a purchase (pending or not) with its course and its user in
    place is acknowledged with 200; afterwards that purchase is completed,
    every lecture of the course has isPreviewFree set, the user's
    enrolledCourses holds the course id and the course's enrolledStudents
    holds the user id. *)
Theorem completed_session_enrolls rt req event w purchase course user :
  dbBudget w = None ->
  verified_as rt req event ->
  event_type event = "checkout.session.completed" ->
  findOne (has_paymentId (session_id (event_data_object event)))
    (CoursePurchases (db w)) = Some purchase ->
  findOne (has_course_id (courseId purchase)) (Courses (db w)) = Some course ->
  findOne (has_user_id (userId purchase)) (Users (db w)) = Some user ->
  let w' := snd (stripeWebhook rt req w) in
  fst (stripeWebhook rt req w) = ok_empty
  /\ (exists p', findOne (has_paymentId (session_id (event_data_object event)))
                   (CoursePurchases (db w')) = Some p'
                 /\ purchase_id p' = purchase_id purchase
                 /\ status p' = "completed")
  /\ List.map lecture_id (Lectures (db w')) = List.map lecture_id (Lectures (db w))
  /\ (forall l, In l (Lectures (db w')) -> In (lecture_id l) (lectures course) ->
                isPreviewFree l = true)
  /\ (exists u', findOne (has_user_id (userId purchase)) (Users (db w')) = Some u'
                 /\ enrolledCourses u' = addToSet (courseId purchase) (enrolledCourses user)
                 /\ In (courseId purchase) (enrolledCourses u'))
  /\ (exists c', findOne (has_course_id (courseId purchase)) (Courses (db w')) = Some c'
                 /\ enrolledStudents c' = addToSet (userId purchase) (enrolledStudents course)
                 /\ In (userId purchase) (enrolledStudents c')).
Proof.
  intros Hb Hv Ht Hp Hc Hu. destruct w as [d b c n]. simpl in Hb, Hp, Hc, Hu. subst b.
  destruct (completed_enrolled rt req event Hv Ht d c n purchase course Hp Hc) as [c' Hrun].
  cbv zeta. rewrite Hrun. unfold db_enrolled.
  cbn [fst snd db Courses Lectures Users CoursePurchases].
  pose proof (findOne_course_id _ _ _ Hc) as Hcid.
  destruct (settle_fields (event_data_object event) purchase) as (Hid & _ & Huid & _ & Hst).
  split; [reflexivity|]. split; [|split; [|split; [|split]]].
  - exists (settle (event_data_object event) purchase).
    rewrite (findOne_saved_purchases _ _ _ _ Hp). auto.
  - destruct (0 <? _)%nat; [|reflexivity].
    now apply updateMany_ids.
  - intros l Hl Hin. destruct (0 <? List.length (lectures course))%nat eqn:El.
    + unfold updateMany in Hl. apply List.in_map_iff in Hl. destruct Hl as [x [Hx _]].
      destruct (op_in (lecture_id x) (lectures course)) eqn:E; subst l; [reflexivity|].
      apply op_in_In in Hin. congruence.
    + apply Nat.ltb_ge in El. destruct (lectures course); [destruct Hin | simpl in El; lia].
  - rewrite Huid, Hcid. rewrite findOne_updateOne.
    + rewrite Hu. simpl. eexists. split; [reflexivity|]. split; [reflexivity|].
      apply addToSet_In.
    + intros x Hx. exact Hx.
  - rewrite Huid, Hcid. rewrite findOne_updateOne.
    + rewrite Hc. simpl. eexists. split; [reflexivity|]. split; [reflexivity|].
      apply addToSet_In.
    + intros x Hx. exact Hx.
Qed.

(** C3 (as amended): after a verified "checkout.session.completed" event
    whose session id finds a purchase, the stored purchase's amount is the
    reported total divided by 100 when that total is a truthy Number, and
    the amount it had before when the total is null, zero or NaN. *)
Theorem completed_session_amount rt req event w purchase :
  dbBudget w = None ->
  verified_as rt req event ->
  event_type event = "checkout.session.completed" ->
  findOne (has_paymentId (session_id (event_data_object event)))
    (CoursePurchases (db w)) = Some purchase ->
  let w' := snd (stripeWebhook rt req w) in
  exists p', findOne (has_paymentId (session_id (event_data_object event)))
               (CoursePurchases (db w')) = Some p'
             /\ purchase_id p' = purchase_id purchase
             /\ amount p' =
                match amount_total (event_data_object event) with
                | Some total => if truthy total then div total (of_Z 100)
                                else amount purchase
                | None => amount purchase
                end.
Proof.
  intros Hb Hv Ht Hp. destruct w as [d b c n]. simpl in Hb, Hp. subst b. cbv zeta.
  exists (settle (event_data_object event) purchase).
  destruct (settle_fields (event_data_object event) purchase) as (Hid & _).
  rewrite settle_amount. split; [|now split].
  destruct (findOne (has_course_id (courseId purchase)) (Courses d)) as [course|] eqn:Hc.
  - destruct (completed_enrolled rt req event Hv Ht d c n purchase course Hp Hc) as [c' ->].
    unfold db_enrolled. cbn [snd db CoursePurchases].
    now apply findOne_saved_purchases.
  - destruct (completed_dangling rt req event Hv Ht d c n purchase Hp Hc) as [c' ->].
    unfold db_saved. cbn [snd db CoursePurchases].
    now apply findOne_saved_purchases.
Qed.

(** ** Redelivery of a completed session *)

Lemma save_again (p : CoursePurchase) l :
  updateOne (has_purchase_id (purchase_id p)) (fun _ => p)
    (updateOne (has_purchase_id (purchase_id p)) (fun _ => p) l)
  = updateOne (has_purchase_id (purchase_id p)) (fun _ => p) l.
Proof.
  apply updateOne_idempotent; [|reflexivity].
  intros _ _. apply String.eqb_refl.
Qed.

Lemma db_saved_again p d : db_saved p (db_saved p d) = db_saved p d.
Proof.
  unfold db_saved, saved_purchases. cbn [Courses Lectures Users CoursePurchases].
  now rewrite save_again.
Qed.

Lemma db_enrolled_again p c d :
  db_enrolled p (set_enrolledStudents (addToSet (userId p)) c) (db_enrolled p c d)
  = db_enrolled p c d.
Proof.
  unfold db_enrolled, saved_purchases.
  cbn [Courses Lectures Users CoursePurchases course_id lectures set_enrolledStudents].
  rewrite save_again. f_equal.
  - apply updateOne_idempotent.
    + intros x Hx. exact Hx.
    + intros x _. unfold set_enrolledStudents. cbn. now rewrite addToSet_idempotent.
  - destruct (0 <? _)%nat; [|reflexivity].
    apply updateMany_idempotent; reflexivity.
  - apply updateOne_idempotent.
    + intros x Hx. exact Hx.
    + intros x _. unfold set_enrolledCourses. cbn. now rewrite addToSet_idempotent.
Qed.

Lemma NoDup_enrolledCourses_updateOne i cid l :
  (forall u, In u l -> NoDup (enrolledCourses u)) ->
  forall u, In u (updateOne (has_user_id i) (set_enrolledCourses (addToSet cid)) l) ->
            NoDup (enrolledCourses u).
Proof.
  intros H u Hu. apply In_updateOne in Hu. destruct Hu as [Hu|[x [Hx [_ ->]]]].
  - now apply H.
  - cbn. apply addToSet_NoDup. now apply H.
Qed.

Lemma NoDup_enrolledStudents_updateOne i uid l :
  (forall c, In c l -> NoDup (enrolledStudents c)) ->
  forall c, In c (updateOne (has_course_id i) (set_enrolledStudents (addToSet uid)) l) ->
            NoDup (enrolledStudents c).
Proof.
  intros H c Hc. apply In_updateOne in Hc. destruct Hc as [Hc|[x [Hx [_ ->]]]].
  - now apply H.
  - cbn. apply addToSet_NoDup. now apply H.
Qed.

(** C7: delivering the same verified "checkout.session.completed" event a
    second time leaves the database exactly as the first delivery left it
    and is answered the same way; enrolledCourses and enrolledStudents
    arrays that had no duplicates still have none, and the purchase found
    by the session id is completed after each delivery. *)
Theorem completed_session_redelivery rt req event w :
  dbBudget w = None ->
  verified_as rt req event ->
  event_type event = "checkout.session.completed" ->
  let sid := session_id (event_data_object event) in
  let w1 := snd (stripeWebhook rt req w) in
  let w2 := snd (stripeWebhook rt req w1) in
  db w2 = db w1
  /\ fst (stripeWebhook rt req w1) = fst (stripeWebhook rt req w)
  /\ ((forall u, In u (Users (db w)) -> NoDup (enrolledCourses u)) ->
      forall u, In u (Users (db w2)) -> NoDup (enrolledCourses u))
  /\ ((forall c, In c (Courses (db w)) -> NoDup (enrolledStudents c)) ->
      forall c, In c (Courses (db w2)) -> NoDup (enrolledStudents c))
  /\ (forall p, findOne (has_paymentId sid) (CoursePurchases (db w)) = Some p ->
      exists p1, findOne (has_paymentId sid) (CoursePurchases (db w1)) = Some p1
                 /\ status p1 = "completed"
                 /\ findOne (has_paymentId sid) (CoursePurchases (db w2)) = Some p1).
Proof.
  intros Hb Hv Ht sid. destruct w as [d b c n]. simpl in Hb. subst b. cbv zeta.
  destruct (findOne (has_paymentId sid) (CoursePurchases d)) as [p|] eqn:Hp.
  - pose proof (findOne_saved_purchases sid (event_data_object event) p d Hp) as Hp1.
    destruct (settle_fields (event_data_object event) p) as (Hid & Hcid & Huid & _ & Hst).
    destruct (findOne (has_course_id (courseId p)) (Courses d)) as [course|] eqn:Hc.
    + destruct (completed_enrolled rt req event Hv Ht d c n p course Hp Hc) as [c1 H1].
      rewrite H1. cbn [snd fst].
      assert (Hc1 : findOne (has_course_id (courseId (settle (event_data_object event) p)))
                      (Courses (db_enrolled (settle (event_data_object event) p) course d))
                    = Some (set_enrolledStudents (addToSet (userId (settle (event_data_object event) p))) course)).
      { unfold db_enrolled. cbn [Courses]. rewrite Hcid.
        rewrite (findOne_course_id _ _ _ Hc). rewrite findOne_updateOne.
        - now rewrite Hc.
        - intros x Hx. exact Hx. }
      destruct (completed_enrolled rt req event Hv Ht
                  (db_enrolled (settle (event_data_object event) p) course d) c1 n _ _ Hp1 Hc1) as [c2 H2].
      rewrite settle_idempotent in H2.
      rewrite db_enrolled_again in H2. rewrite H2. cbn [snd fst db].
      split; [reflexivity|]. split; [reflexivity|]. split; [|split].
      * intros HN. unfold db_enrolled. cbn [Users].
        now apply NoDup_enrolledCourses_updateOne.
      * intros HN. unfold db_enrolled. cbn [Courses].
        now apply NoDup_enrolledStudents_updateOne.
      * intros q Hq. cbn [db] in Hq. rewrite Hp in Hq. injection Hq as <-. exists (settle (event_data_object event) p). auto.
    + destruct (completed_dangling rt req event Hv Ht d c n p Hp Hc) as [c1 H1].
      rewrite H1. cbn [snd fst].
      assert (Hc1 : findOne (has_course_id (courseId (settle (event_data_object event) p)))
                      (Courses (db_saved (settle (event_data_object event) p) d)) = None).
      { unfold db_saved. cbn [Courses]. now rewrite Hcid. }
      destruct (completed_dangling rt req event Hv Ht
                  (db_saved (settle (event_data_object event) p) d) c1 n _ Hp1 Hc1) as [c2 H2].
      rewrite settle_idempotent in H2.
      rewrite db_saved_again in H2. rewrite H2. cbn [snd fst db].
      split; [reflexivity|]. split; [reflexivity|]. split; [|split].
      * intros HN. exact HN.
      * intros HN. exact HN.
      * intros q Hq. cbn [db] in Hq. rewrite Hp in Hq. injection Hq as <-. exists (settle (event_data_object event) p). auto.
  - destruct (completed_not_found rt req event Hv Ht d c n Hp) as [c1 H1].
    rewrite H1. cbn [snd fst].
    destruct (completed_not_found rt req event Hv Ht d c1 n Hp) as [c2 H2].
    rewrite H2. cbn [snd fst db].
    split; [reflexivity|]. split; [reflexivity|]. split; [|split]; try tauto.
    intros q Hq. cbn [db] in Hq. rewrite Hp in Hq. discriminate.
Qed.

(** ** Expired sessions and other events *)

(** C5: a verified "checkout.session.expired" event is answered with 200;
    the first purchase whose paymentId is the expired session id is taken
    out of the collection and nothing else changes, and when no purchase
    has that paymentId the database is left as it was. *)
Theorem expired_session_deletes rt req event w :
  dbBudget w = None ->
  verified_as rt req event ->
  event_type event = "checkout.session.expired" ->
  let sid := session_id (event_data_object event) in
  let w' := snd (stripeWebhook rt req w) in
  fst (stripeWebhook rt req w) = ok_empty
  /\ Courses (db w') = Courses (db w)
  /\ Lectures (db w') = Lectures (db w)
  /\ Users (db w') = Users (db w)
  /\ (findOne (has_paymentId sid) (CoursePurchases (db w)) = None -> db w' = db w)
  /\ (forall p, findOne (has_paymentId sid) (CoursePurchases (db w)) = Some p ->
      exists l1 l2,
        CoursePurchases (db w) = (l1 ++ p :: l2)%list
        /\ CoursePurchases (db w') = (l1 ++ l2)%list
        /\ forall x, In x l1 -> has_paymentId sid x = false).
Proof.
  intros Hb Hv Ht sid. rewrite (stripeWebhook_verified _ _ _ _ Hv).
  destruct w as [d b c n]. simpl in Hb. subst b.
  unfold dispatchEvent. rewrite Ht. simpl String.eqb. cbv iota.
  unfold on_checkout_session_expired, CoursePurchase_findOneAndDelete_paymentId. run.
  repeat split.
  - intros Hnone. fold sid. rewrite (findOneAndDelete_missing _ _ Hnone). now destruct d.
  - intros p Hp. destruct (findOneAndDelete_found _ _ _ Hp) as (l1 & l2 & H1 & H2 & H3).
    exists l1, l2. auto.
Qed.

(** C8: a verified event of any type other than
    "checkout.session.completed" and "checkout.session.expired" is
    answered with 200 and leaves every collection as it was; no database
    call is made. *)
Theorem unhandled_event_acknowledged rt req event w :
  verified_as rt req event ->
  event_type event <> "checkout.session.completed" ->
  event_type event <> "checkout.session.expired" ->
  fst (stripeWebhook rt req w) = ok_empty
  /\ db (snd (stripeWebhook rt req w)) = db w
  /\ dbBudget (snd (stripeWebhook rt req w)) = dbBudget w.
Proof.
  intros Hv Hc He. rewrite (stripeWebhook_verified _ _ _ _ Hv).
  unfold dispatchEvent.
  apply String.eqb_neq in Hc, He. rewrite Hc, He. run. auto.
Qed.

(** ** Signature verification *)

Section RespondsWith.
Variable P : Response -> Prop.

Lemma responds_with_bind {A} (m : M A) (k : A -> Handler) :
  (forall a, responds_with P (k a)) -> responds_with P (bind m k).
Proof.
  intros Hk w r w'. unfold bind. destruct (m w) as [[a|e] w1]; [apply Hk | discriminate].
Qed.

Lemma responds_with_try_catch (m : Handler) (h : Exn -> Handler) :
  responds_with P m -> (forall e, responds_with P (h e)) ->
  responds_with P (try_catch m h).
Proof.
  intros Hm Hh w r w'. unfold try_catch.
  destruct (m w) as [[a|e] w1] eqn:E; [|apply Hh].
  intros [= -> ->]. exact (Hm _ _ _ E).
Qed.

Lemma responds_with_respond code b :
  P {| statusCode := code; resBody := b |} -> responds_with P (respond code b).
Proof. intros H w r w' [= <- _]. exact H. Qed.

End RespondsWith.

Lemma dispatchEvent_codes event :
  responds_with (fun r => statusCode r <> 400) (dispatchEvent event).
Proof.
  unfold dispatchEvent, on_checkout_session_completed, on_checkout_session_expired.
  repeat first
    [ apply responds_with_bind; intros ?
    | apply responds_with_respond; simpl; discriminate
    | match goal with
      | |- responds_with _ (if ?b then _ else _) => destruct b
      | |- responds_with _ (match ?x with _ => _ end) => destruct x
      end ].
Qed.

(** ** Checkout sessions *)

(** C4: with the database reachable, [createCheckoutSession] appends one
    purchase exactly when the course exists and the provider returned a
    session with a URL; that purchase is pending, carries the course
    price as its amount and the session id as its paymentId, and the
    response is 200 with the URL.  When the session has no URL the
    response is 400 and nothing is persisted; nothing is persisted either
    when the course is missing (404) or the provider call throws (500). *)
Theorem checkout_persists_after_url rt req w :
  dbBudget w = None ->
  let courseId_ := checkout_body_courseId req in
  let userId_ := checkout_req_id req in
  let result := createCheckoutSession rt req w in
  let w' := snd result in
  match findOne (has_course_id courseId_) (Courses (db w)) with
  | None =>
      fst result = Returned (Some {| statusCode := 404;
                                     resBody := JsonMessage "Course not found!" |})
      /\ db w' = db w
  | Some course =>
      match checkout_sessions_create (stripe rt) (checkout_params course courseId_ userId_) with
      | inl _ =>
          fst result = Returned (Some {| statusCode := 500;
                                         resBody := JsonSuccessMessage false "Server error" |})
          /\ db w' = db w
      | inr session =>
          match truthy_string (session_url session) with
          | None =>
              fst result =
              Returned (Some {| statusCode := 400;
                                resBody := JsonSuccessMessage false
                                             "Error while creating session" |})
              /\ db w' = db w
          | Some url =>
              fst result = Returned (Some {| statusCode := 200;
                                             resBody := JsonSuccessUrl true url |})
              /\ Courses (db w') = Courses (db w)
              /\ Lectures (db w') = Lectures (db w)
              /\ Users (db w') = Users (db w)
              /\ exists p,
                   CoursePurchases (db w') = (CoursePurchases (db w) ++ [p])%list
                   /\ status p = "pending"
                   /\ amount p = coursePrice course
                   /\ paymentId p = Some (session_id session)
                   /\ courseId p = courseId_
                   /\ userId p = userId_
          end
      end
  end.
Proof.
  intros Hb. destruct w as [d b c n]. simpl in Hb. subst b. cbv zeta.
  unfold createCheckoutSession, Course_findById, new_CoursePurchase, CoursePurchase_save_new.
  run.
  destruct (findOne _ (Courses d)) as [course|]; run; [|now destruct d].
  destruct (checkout_sessions_create _ _) as [e|session]; run; [now destruct d|].
  destruct (truthy_string (session_url session)) as [url|]; run; [|now destruct d].
  repeat split. eexists. repeat split.
Qed.

(** ** Status queries *)

(** C6: when the course exists (and the database is reachable) the
    response is 200 with the populated course and a purchased flag that is
    true exactly when some purchase of that user for that course is
    stored, whatever its status. *)
Theorem purchased_flag_any_status req w course :
  dbBudget w = None ->
  findOne (has_course_id (detail_params_courseId req)) (Courses (db w)) = Some course ->
  exists purchased,
    fst (getCourseDetailWithPurchaseStatus req w)
    = Returned (Some {| statusCode := 200;
                        resBody := JsonCoursePurchased (populate_course (db w) course)
                                     purchased |})
    /\ db (snd (getCourseDetailWithPurchaseStatus req w)) = db w
    /\ (purchased = true <->
        exists p, In p (CoursePurchases (db w))
                  /\ userId p = detail_req_id req
                  /\ courseId p = detail_params_courseId req).
Proof.
  intros Hb Hc. destruct w as [d b c n]. simpl in Hb, Hc. subst b.
  unfold getCourseDetailWithPurchaseStatus, getCourseDetailWithPurchaseStatus_try,
    Course_findById_populated, CoursePurchase_findOne_user_course.
  run. rewrite Hc. simpl.
  eexists. split; [reflexivity|]. split; [now destruct d|].
  set (f := has_user_course (detail_req_id req) (detail_params_courseId req)).
  assert (Hf : forall p, f p = true <->
                         userId p = detail_req_id req /\ courseId p = detail_params_courseId req).
  { intros p. unfold f, has_user_course. rewrite Bool.andb_true_iff, !String.eqb_eq. tauto. }
  destruct (findOne f (CoursePurchases d)) as [p|] eqn:E.
  - split; [intros _|reflexivity]. apply findOne_In in E. destruct E as [Hin Hp].
    exists p. apply Hf in Hp. tauto.
  - split; [discriminate|]. intros [p [Hin Hp]].
    pose proof (findOne_None _ _ E p Hin) as Hn. apply Hf in Hp. congruence.
Qed.

(** The [try] blocks do throw: when the connection is lost before either
    lookup of the detail query, or before the listing query. *)
Lemma detail_query_throws req w k :
  dbBudget w = Some k -> (k < 2)%nat ->
  exists w1, getCourseDetailWithPurchaseStatus_try req w = (Thrown MongooseError, w1)
             /\ db w1 = db w /\ console w1 = console w.
Proof.
  intros Hb Hk. destruct w as [d b c n]. simpl in Hb. subst b.
  unfold getCourseDetailWithPurchaseStatus_try, Course_findById_populated,
    CoursePurchase_findOne_user_course.
  destruct k as [|[|k]]; [| |lia]; run; eexists; (split; [reflexivity|]); split;
    try reflexivity; now destruct d.
Qed.

Lemma listing_query_throws w :
  dbBudget w = Some 0%nat ->
  getAllPurchasedCourse_try w = (Thrown MongooseError, w).
Proof.
  intros Hb. destruct w as [d b c n]. simpl in Hb. subst b.
  unfold getAllPurchasedCourse_try, CoursePurchase_find_status_populated. run. reflexivity.
Qed.

(** C9: whenever the [try] block of [getCourseDetailWithPurchaseStatus] or
    of [getAllPurchasedCourse] throws, the handler sends no response: the
    error is written to the console and nothing else happens.  This is
    what happens when the database connection is lost before one of the
    two lookups of the detail query, or before the listing query. *)
Theorem query_errors_unanswered :
  (forall req w e w1,
     getCourseDetailWithPurchaseStatus_try req w = (Thrown e, w1) ->
     fst (getCourseDetailWithPurchaseStatus req w) = Returned None
     /\ console (snd (getCourseDetailWithPurchaseStatus req w))
        = (console w1 ++ [[LogError e]])%list
     /\ db (snd (getCourseDetailWithPurchaseStatus req w)) = db w1)
  /\ (forall w e w1,
        getAllPurchasedCourse_try w = (Thrown e, w1) ->
        fst (getAllPurchasedCourse w) = Returned None
        /\ console (snd (getAllPurchasedCourse w)) = (console w1 ++ [[LogError e]])%list
        /\ db (snd (getAllPurchasedCourse w)) = db w1)
  /\ (forall req w k,
        dbBudget w = Some k -> (k < 2)%nat ->
        fst (getCourseDetailWithPurchaseStatus req w) = Returned None
        /\ console (snd (getCourseDetailWithPurchaseStatus req w))
           = (console w ++ [[LogError MongooseError]])%list)
  /\ (forall w,
        dbBudget w = Some 0%nat ->
        fst (getAllPurchasedCourse w) = Returned None
        /\ console (snd (getAllPurchasedCourse w))
           = (console w ++ [[LogError MongooseError]])%list).
Proof.
  assert (Hdetail : forall req w e w1,
             getCourseDetailWithPurchaseStatus_try req w = (Thrown e, w1) ->
             fst (getCourseDetailWithPurchaseStatus req w) = Returned None
             /\ console (snd (getCourseDetailWithPurchaseStatus req w))
                = (console w1 ++ [[LogError e]])%list
             /\ db (snd (getCourseDetailWithPurchaseStatus req w)) = db w1).
  { intros req w e w1 H. unfold getCourseDetailWithPurchaseStatus, try_catch.
    rewrite H. run. auto. }
  assert (Hlisting : forall w e w1,
             getAllPurchasedCourse_try w = (Thrown e, w1) ->
             fst (getAllPurchasedCourse w) = Returned None
             /\ console (snd (getAllPurchasedCourse w))
                = (console w1 ++ [[LogError e]])%list
             /\ db (snd (getAllPurchasedCourse w)) = db w1).
  { intros w e w1 H. unfold getAllPurchasedCourse, try_catch.
    rewrite H. run. auto. }
  split; [exact Hdetail|]. split; [exact Hlisting|]. split.
  - intros req w k Hb Hk.
    destruct (detail_query_throws req w k Hb Hk) as (w1 & Hthrow & _ & Hc).
    rewrite <- Hc. destruct (Hdetail _ _ _ _ Hthrow) as (H1 & H2 & _). now split.
  - intros w Hb.
    destruct (Hlisting _ _ _ (listing_query_throws w Hb)) as (H1 & H2 & _). now split.
Qed.

(** ** The theorems at the sample data *)

Lemma completed_runtime_verified total :
  verified_as (completed_runtime total) sample_webhook_request
    (sample_event "checkout.session.completed" total).
Proof. intros w. reflexivity. Defined.

Lemma completed_session_enrolls_witness :
  let w' := snd (stripeWebhook (completed_runtime (Some (of_Z 1000)))
                   sample_webhook_request (sample_world None)) in
  fst (stripeWebhook (completed_runtime (Some (of_Z 1000)))
         sample_webhook_request (sample_world None)) = ok_empty
  /\ (forall l, In l (Lectures (db w')) -> In (lecture_id l) ["l1"; "l2"] ->
                isPreviewFree l = true).
Proof.
  pose proof (completed_session_enrolls (completed_runtime (Some (of_Z 1000)))
                sample_webhook_request _ (sample_world None)
                sample_purchase sample_course sample_user
                eq_refl (completed_runtime_verified _) eq_refl eq_refl eq_refl eq_refl) as H.
  cbv zeta in H |- *. destruct H as (H1 & _ & _ & H4 & _). split; [exact H1 | exact H4].
Defined.

Lemma completed_session_amount_witness :
  exists p',
    findOne (has_paymentId "cs_1")
      (CoursePurchases (db (snd (stripeWebhook (completed_runtime (Some (of_Z 1000)))
                                   sample_webhook_request (sample_world None))))) = Some p'
    /\ purchase_id p' = "p1"
    /\ amount p' = of_Z 10.
Proof.
  exact (completed_session_amount (completed_runtime (Some (of_Z 1000)))
           sample_webhook_request _ (sample_world None) sample_purchase
           eq_refl (completed_runtime_verified _) eq_refl eq_refl).
Defined.

(** C3, as stated, fails: a completed session reporting a total of 0 is
    acknowledged with 200 and leaves the stored amount at 33.2, which is
    not 0 / 100. *)
Lemma zero_total_keeps_amount :
  let result := stripeWebhook (completed_runtime (Some (of_Z 0)))
                  sample_webhook_request (sample_world None) in
  fst result = ok_empty
  /\ option_map amount
       (findOne (has_paymentId "cs_1") (CoursePurchases (db (snd result))))
     = Some (of_ratio 332 10)
  /\ of_ratio 332 10 <> div (of_Z 0) (of_Z 100).
Proof. vm_compute. repeat split; discriminate. Qed.

Lemma completed_session_redelivery_witness :
  let w1 := snd (stripeWebhook (completed_runtime (Some (of_Z 1000)))
                   sample_webhook_request (sample_world None)) in
  let w2 := snd (stripeWebhook (completed_runtime (Some (of_Z 1000)))
                   sample_webhook_request w1) in
  db w2 = db w1.
Proof.
  exact (proj1 (completed_session_redelivery (completed_runtime (Some (of_Z 1000)))
                  sample_webhook_request _ (sample_world None)
                  eq_refl (completed_runtime_verified _) eq_refl)).
Defined.

Lemma expired_session_deletes_witness :
  fst (stripeWebhook expired_runtime sample_webhook_request (sample_world None)) = ok_empty
  /\ exists l1 l2,
       [sample_purchase] = (l1 ++ sample_purchase :: l2)%list
       /\ CoursePurchases (db (snd (stripeWebhook expired_runtime sample_webhook_request
                                      (sample_world None)))) = (l1 ++ l2)%list.
Proof.
  pose proof (expired_session_deletes expired_runtime sample_webhook_request
                (sample_event "checkout.session.expired" None) (sample_world None)
                eq_refl (fun w => eq_refl) eq_refl) as H.
  cbv zeta in H. destruct H as (H1 & _ & _ & _ & _ & H6). split; [exact H1|].
  destruct (H6 sample_purchase eq_refl) as (l1 & l2 & Hl & Hd & _).
  exists l1, l2. split; assumption.
Defined.

Lemma unhandled_event_acknowledged_witness :
  fst (stripeWebhook other_runtime sample_webhook_request (sample_world (Some 0%nat)))
  = ok_empty
  /\ db (snd (stripeWebhook other_runtime sample_webhook_request (sample_world (Some 0%nat))))
     = sample_db.
Proof.
  pose proof (unhandled_event_acknowledged other_runtime sample_webhook_request
                (sample_event "payment_intent.succeeded" None) (sample_world (Some 0%nat))
                (fun w => eq_refl)) as H.
  destruct H as (H1 & H2 & _); [discriminate | discriminate |].
  split; [exact H1 | exact H2].
Defined.

Lemma checkout_persists_after_url_witness :
  exists p,
    CoursePurchases (db (snd (createCheckoutSession checkout_runtime sample_checkout_request
                                (sample_world None))))
    = [sample_purchase; p]
    /\ status p = "pending"
    /\ amount p = of_ratio 332 10
    /\ paymentId p = Some "cs_1".
Proof.
  pose proof (checkout_persists_after_url checkout_runtime sample_checkout_request
                (sample_world None) eq_refl) as H.
  cbv zeta in H. simpl in H. destruct H as (_ & _ & _ & _ & p & H1 & H2 & H3 & H4 & _).
  exists p. auto.
Defined.

Lemma purchased_flag_any_status_witness :
  exists purchased,
    fst (getCourseDetailWithPurchaseStatus sample_detail_request (sample_world None))
    = Returned (Some {| statusCode := 200;
                        resBody := JsonCoursePurchased
                                     (populate_course sample_db sample_course) purchased |})
    /\ db (snd (getCourseDetailWithPurchaseStatus sample_detail_request (sample_world None)))
       = sample_db
    /\ (purchased = true <->
        exists p, In p [sample_purchase] /\ userId p = "u1" /\ courseId p = "c1").
Proof.
  exact (purchased_flag_any_status sample_detail_request (sample_world None) sample_course
           eq_refl eq_refl).
Defined.

Lemma query_errors_unanswered_witness :
  fst (getCourseDetailWithPurchaseStatus sample_detail_request (sample_world (Some 1%nat)))
  = Returned None
  /\ fst (getAllPurchasedCourse (sample_world (Some 0%nat))) = Returned None.
Proof.
  split.
  - exact (proj1 (proj1 query_errors_unanswered sample_detail_request
                    (sample_world (Some 1%nat)) MongooseError _ eq_refl)).
  - exact (proj1 (proj1 (proj2 query_errors_unanswered)
                    (sample_world (Some 0%nat)) MongooseError _ eq_refl)).
Defined.

(** * Further properties of the handlers *)

(** ** Database relations kept by every run *)

Section Keeps.
Variable R : Db -> Db -> Prop.
Hypothesis R_refl : forall d, R d d.
Hypothesis R_trans : forall d1 d2 d3, R d1 d2 -> R d2 d3 -> R d1 d3.

Lemma keeps_ret {A} (a : A) : keeps R (ret a).
Proof. intros w. apply R_refl. Qed.

Lemma keeps_throw {A} e : keeps R (@throw A e).
Proof. intros w. apply R_refl. Qed.

Lemma keeps_lift {A} (r : Exn + A) : keeps R (lift r).
Proof. destruct r; [apply keeps_throw | apply keeps_ret]. Qed.

Lemma keeps_console_log args : keeps R (console_log args).
Proof. intros w. apply R_refl. Qed.

Lemma keeps_respond code b : keeps R (respond code b).
Proof. apply keeps_ret. Qed.

Lemma keeps_bind {A B} (m : M A) (k : A -> M B) :
  keeps R m -> (forall a, keeps R (k a)) -> keeps R (bind m k).
Proof.
  intros Hm Hk w. unfold bind. specialize (Hm w).
  destruct (m w) as [[a|e] w1]; simpl in *; [|exact Hm].
  exact (R_trans _ _ _ Hm (Hk a w1)).
Qed.

Lemma keeps_try_catch {A} (m : M A) (h : Exn -> M A) :
  keeps R m -> (forall e, keeps R (h e)) -> keeps R (try_catch m h).
Proof.
  intros Hm Hh w. unfold try_catch. specialize (Hm w).
  destruct (m w) as [[a|e] w1]; simpl in *; [exact Hm|].
  exact (R_trans _ _ _ Hm (Hh e w1)).
Qed.

Lemma keeps_dbCall {A} (f : Db -> A * Db) :
  (forall d, R d (snd (f d))) -> keeps R (dbCall f).
Proof.
  intros Hf w. unfold dbCall. specialize (Hf (db w)).
  destruct (dbBudget w) as [[|n]|]; [apply R_refl | |];
    destruct (f (db w)) as [a d]; exact Hf.
Qed.

Lemma keeps_dbRead {A} (f : Db -> A) : keeps R (dbRead f).
Proof. apply keeps_dbCall. intros d. apply R_refl. Qed.

End Keeps.

(** Steps through a handler, one monadic construct at a time; the
    reflexivity and transitivity of the relation are taken from the
    context. *)
Ltac keeps_step :=
  first
    [ apply keeps_bind; [solve [assumption] | | intros ?]
    | apply keeps_try_catch; [solve [assumption] | | intros ?]
    | apply keeps_respond; solve [assumption]
    | apply keeps_ret; solve [assumption]
    | apply keeps_throw; solve [assumption]
    | apply keeps_lift; solve [assumption]
    | apply keeps_console_log; solve [assumption]
    | apply keeps_dbRead; solve [assumption]
    | match goal with
      | |- keeps _ (if ?b then _ else _) => destruct b
      | |- keeps _ (match ?x with _ => _ end) => destruct x
      end ].

(** X7: the two query handlers never write: whatever the state of the
    connection, the database after [getCourseDetailWithPurchaseStatus] and
    after [getAllPurchasedCourse] is the database before. *)
Theorem queries_read_only :
  (forall req w, db (snd (getCourseDetailWithPurchaseStatus req w)) = db w)
  /\ (forall w, db (snd (getAllPurchasedCourse w)) = db w).
Proof.
  assert (Hrefl : forall d : Db, d = d) by reflexivity.
  assert (Htrans : forall d1 d2 d3 : Db, d1 = d2 -> d2 = d3 -> d1 = d3)
    by (intros; congruence).
  split.
  - intros req w. symmetry. revert w.
    change (keeps eq (getCourseDetailWithPurchaseStatus req)).
    unfold getCourseDetailWithPurchaseStatus, getCourseDetailWithPurchaseStatus_try,
      Course_findById_populated, CoursePurchase_findOne_user_course.
    repeat keeps_step.
  - intros w. symmetry. revert w.
    change (keeps eq getAllPurchasedCourse).
    unfold getAllPurchasedCourse, getAllPurchasedCourse_try,
      CoursePurchase_find_status_populated.
    repeat keeps_step.
Qed.

(** ** What the webhook keeps *)

Section Forall2Facts.
Context {A : Type}.
Variable R : A -> A -> Prop.
Hypothesis R_refl : forall x, R x x.

Lemma Forall2_same (l : list A) : Forall2 R l l.
Proof. induction l; constructor; auto. Qed.

Lemma Forall2_updateOne (f : A -> bool) (g : A -> A) (l : list A) :
  (forall x, f x = true -> R x (g x)) -> Forall2 R l (updateOne f g l).
Proof.
  intros Hg. induction l as [|x l IH]; simpl; [constructor|].
  destruct (f x) eqn:E; constructor; auto using Forall2_same.
Qed.

Lemma Forall2_updateMany (f : A -> bool) (g : A -> A) (l : list A) :
  (forall x, f x = true -> R x (g x)) -> Forall2 R l (updateMany f g l).
Proof.
  intros Hg. unfold updateMany. induction l as [|x l IH]; simpl; constructor; auto.
  destruct (f x) eqn:E; auto.
Qed.

End Forall2Facts.

Lemma Forall2_chain {A} (R : A -> A -> Prop) :
  (forall x y z, R x y -> R y z -> R x z) ->
  forall l1 l2 l3, Forall2 R l1 l2 -> Forall2 R l2 l3 -> Forall2 R l1 l3.
Proof.
  intros Ht l1 l2 l3 H12. revert l3.
  induction H12 as [|x y l1 l2 Hxy _ IH]; intros l3 H23; inversion H23; subst;
    constructor; eauto.
Qed.

Lemma incl_addToSet i l : incl l (addToSet i l).
Proof.
  unfold addToSet. destruct (op_in i l); [apply incl_refl | now apply incl_appl, incl_refl].
Qed.

Lemma db_grows_refl d : db_grows d d.
Proof.
  unfold db_grows. repeat split; try apply Forall2_same; try apply incl_refl; auto.
  - intros c. unfold course_grows. repeat split; apply incl_refl.
  - intros l. unfold lecture_grows. auto.
  - intros u. unfold user_grows. split; [reflexivity | apply incl_refl].
Qed.

Lemma db_grows_trans d1 d2 d3 : db_grows d1 d2 -> db_grows d2 d3 -> db_grows d1 d3.
Proof.
  intros (Hc & Hl & Hu & Hp & Hn) (Hc' & Hl' & Hu' & Hp' & Hn').
  unfold db_grows. repeat split.
  - apply (Forall2_chain course_grows) with (l2 := Courses d2); [|assumption|assumption].
    unfold course_grows. intros x y z H1 H2.
    destruct H1 as (A1 & A2 & A3 & A4 & A5 & A6 & A7).
    destruct H2 as (B1 & B2 & B3 & B4 & B5 & B6 & B7).
    repeat split; try congruence. eapply incl_tran; eassumption.
  - apply (Forall2_chain lecture_grows) with (l2 := Lectures d2); [|assumption|assumption].
    unfold lecture_grows. intros x y z [A1 A2] [B1 B2]. split; [congruence | auto].
  - apply (Forall2_chain user_grows) with (l2 := Users d2); [|assumption|assumption].
    unfold user_grows. intros x y z [A1 A2] [B1 B2]. split; [congruence|].
    eapply incl_tran; eassumption.
  - eapply incl_tran; eassumption.
  - lia.
Qed.

Lemma keeps_dbWrite (R : Db -> Db -> Prop) (f : Db -> Db) :
  (forall d, R d d) -> (forall d, R d (f d)) -> keeps R (dbWrite f).
Proof. intros Hr Hf. apply keeps_dbCall; assumption. Qed.

Lemma saved_ids (p : CoursePurchase) l :
  List.map purchase_id (updateOne (has_purchase_id (purchase_id p)) (fun _ => p) l)
  = List.map purchase_id l.
Proof.
  induction l as [|x l IH]; simpl; [reflexivity|].
  unfold has_purchase_id at 1. destruct (String.eqb (purchase_id x) (purchase_id p)) eqn:E.
  - simpl. apply String.eqb_eq in E. now rewrite E.
  - simpl. now rewrite IH.
Qed.

Lemma findOneAndDelete_incl {A} (f : A -> bool) l : incl (findOneAndDelete f l) l.
Proof.
  induction l as [|x l IH]; simpl; [apply incl_refl|].
  destruct (f x); [apply incl_tl, incl_refl|].
  intros y [<-|Hy]; [now left | right; now apply IH].
Qed.

Lemma findOneAndDelete_length {A} (f : A -> bool) l :
  (List.length (findOneAndDelete f l) <= List.length l)%nat.
Proof.
  induction l as [|x l IH]; simpl; [lia|]. destruct (f x); simpl; lia.
Qed.

Lemma course_grows_refl c : course_grows c c.
Proof. unfold course_grows. repeat split; apply incl_refl. Qed.

Lemma lecture_grows_refl l : lecture_grows l l.
Proof. unfold lecture_grows. auto. Qed.

Lemma user_grows_refl u : user_grows u u.
Proof. unfold user_grows. split; [reflexivity | apply incl_refl]. Qed.

(** X6: whatever the request, the event and the state of the connection,
    the webhook only ever adds: afterwards every course, lecture and user
    document is still there, in place, with its other fields unchanged;
    no student has left a course's enrolledStudents and no course a
    user's enrolledCourses; a lecture that was free to preview still is;
    and no purchase has been added. *)
Theorem webhook_only_grows rt req w :
  db_grows (db w) (db (snd (stripeWebhook rt req w))).
Proof.
  pose proof db_grows_refl as Hrefl. pose proof db_grows_trans as Htrans.
  revert w. change (keeps db_grows (stripeWebhook rt req)).
  unfold stripeWebhook, constructVerifiedEvent, dispatchEvent,
    on_checkout_session_completed, on_checkout_session_expired,
    CoursePurchase_findOne_paymentId_populated, populated_course_id.
  repeat keeps_step.
  all: apply keeps_dbWrite; [assumption|intros d].
  all: unfold db_grows; cbn [Courses Lectures Users CoursePurchases].
  - repeat split; auto using Forall2_same, course_grows_refl, user_grows_refl, incl_refl.
    apply Forall2_updateMany; [apply lecture_grows_refl|].
    intros l _. unfold lecture_grows. auto.
  - repeat split; auto using Forall2_same, course_grows_refl, lecture_grows_refl,
      user_grows_refl.
    + rewrite saved_ids. apply incl_refl.
    + apply Nat.eq_le_incl. rewrite <- (List.length_map purchase_id), saved_ids.
      apply List.length_map.
  - repeat split; auto using Forall2_same, course_grows_refl, lecture_grows_refl, incl_refl.
    apply Forall2_updateOne; [apply user_grows_refl|].
    intros u _. unfold user_grows. split; [reflexivity | apply incl_addToSet].
  - repeat split; auto using Forall2_same, user_grows_refl, lecture_grows_refl, incl_refl.
    apply Forall2_updateOne; [apply course_grows_refl|].
    intros x _. unfold course_grows. cbn. repeat split. apply incl_addToSet.
  - repeat split; auto using Forall2_same, course_grows_refl, lecture_grows_refl,
      user_grows_refl.
    + apply List.incl_map, findOneAndDelete_incl.
    + apply findOneAndDelete_length.
Qed.

(** ** Handlers that always answer *)

Section Answers.
Variable P : Response -> Prop.

Lemma answers_bind {A} (m : M A) (k : A -> Handler) :
  (forall a, answers P (k a)) -> answers P (bind m k).
Proof.
  intros Hk w. unfold bind. destruct (m w) as [[a|e] w1]; [apply Hk | exact I].
Qed.

Lemma answers_respond code b :
  P {| statusCode := code; resBody := b |} -> answers P (respond code b).
Proof. intros H w. exact H. Qed.

Lemma surely_answers_logged args code b :
  P {| statusCode := code; resBody := b |} ->
  surely_answers P (console_log args ;;; respond code b).
Proof. intros H w. exact H. Qed.

Lemma surely_answers_try_catch (m : Handler) (h : Exn -> Handler) :
  answers P m -> (forall e, surely_answers P (h e)) -> surely_answers P (try_catch m h).
Proof.
  intros Hm Hh w. unfold try_catch. specialize (Hm w).
  destruct (m w) as [[[r|]|e] w1]; simpl in *; [exact Hm | destruct Hm | apply Hh].
Qed.

End Answers.

Lemma dispatchEvent_answers event : answers known_status (dispatchEvent event).
Proof.
  unfold dispatchEvent, on_checkout_session_completed, on_checkout_session_expired.
  repeat first
    [ apply answers_bind; intros ?
    | apply answers_respond; unfold known_status; simpl; tauto
    | match goal with
      | |- answers _ (if ?b then _ else _) => destruct b
      | |- answers _ (match ?x with _ => _ end) => destruct x
      end ].
Qed.

(** X2: the webhook always answers: for every runtime, request and world
    (whatever the provider client does and whenever the connection is
    lost) it sends exactly one response, with status 200, 400, 404 or
    500. *)
Theorem stripeWebhook_always_answers rt req w :
  exists r, fst (stripeWebhook rt req w) = Returned (Some r) /\ known_status r.
Proof.
  assert (H : surely_answers known_status (stripeWebhook rt req)).
  { intros w0. unfold stripeWebhook. unfold bind at 1. unfold try_catch at 1, bind at 1.
    destruct (constructVerifiedEvent rt req w0) as [[event|e] w1].
    - cbn [ret]. apply surely_answers_try_catch.
      + apply dispatchEvent_answers.
      + intros e. apply surely_answers_logged. unfold known_status. simpl. tauto.
    - unfold known_status. simpl. tauto. }
  specialize (H w).
  destruct (fst (stripeWebhook rt req w)) as [[r|]|e]; [|destruct H|destruct H].
  exists r. split; [reflexivity | assumption].
Qed.

(** X1: [createCheckoutSession] always answers, and it answers 200 exactly
    when it has persisted a purchase: for every runtime, request and
    world, either the status is 200 and one pending purchase of that user
    for that course, carrying a paymentId, was appended, or the status is
    400, 404 or 500 and the purchases are untouched.  Courses, lectures
    and users are never written. *)
Theorem createCheckoutSession_all_or_nothing rt req w :
  let result := createCheckoutSession rt req w in
  let d' := db (snd result) in
  exists r,
    fst result = Returned (Some r)
    /\ Courses d' = Courses (db w)
    /\ Lectures d' = Lectures (db w)
    /\ Users d' = Users (db w)
    /\ ((statusCode r = 200
         /\ exists p, CoursePurchases d' = (CoursePurchases (db w) ++ [p])%list
                      /\ status p = "pending"
                      /\ userId p = checkout_req_id req
                      /\ courseId p = checkout_body_courseId req
                      /\ paymentId p <> None)
        \/ ((statusCode r = 400 \/ statusCode r = 404 \/ statusCode r = 500)
            /\ CoursePurchases d' = CoursePurchases (db w))).
Proof.
  destruct w as [d b c n]. cbv zeta.
  unfold createCheckoutSession, Course_findById, new_CoursePurchase, CoursePurchase_save_new.
  destruct b as [[|[|k]]|]; run;
    try (eexists; repeat split; right; split; [tauto | reflexivity]);
    (destruct (findOne _ (Courses d)) as [course|]; run;
     [| eexists; repeat split; right; split; [tauto | reflexivity]]);
    (destruct (checkout_sessions_create _ _) as [e|session]; run;
     [eexists; repeat split; right; split; [tauto | reflexivity]|]);
    (destruct (truthy_string (session_url session)) as [url|]; run;
     [| eexists; repeat split; right; split; [tauto | reflexivity]]).
  all: try (eexists; repeat split; right; split; [tauto | reflexivity]).
  all: eexists; repeat split; left; split; [reflexivity|];
    eexists; repeat split; discriminate.
Qed.

(** ** Error paths of the webhook *)

(** X3: when either call into the provider client throws while the handler
    signs and verifies the body, the webhook answers 400 with the text
    "Webhook error: " followed by the error's message; the database is not
    touched and no database call is made. *)
Theorem webhook_rejects_unverified rt req w e :
  (webhooks_generateTestHeaderString (stripe rt)
     (JSON_stringify rt (webhook_body req)) (WEBHOOK_ENDPOINT_SECRET rt) = inl e
   \/ exists header,
        webhooks_generateTestHeaderString (stripe rt)
          (JSON_stringify rt (webhook_body req)) (WEBHOOK_ENDPOINT_SECRET rt) = inr header
        /\ webhooks_constructEvent (stripe rt)
             (JSON_stringify rt (webhook_body req)) header (WEBHOOK_ENDPOINT_SECRET rt)
           = inl e) ->
  fst (stripeWebhook rt req w)
  = Returned (Some {| statusCode := 400;
                      resBody := SendText ("Webhook error: " ++ exn_message e) |})
  /\ db (snd (stripeWebhook rt req w)) = db w
  /\ dbBudget (snd (stripeWebhook rt req w)) = dbBudget w.
Proof.
  intros H. unfold stripeWebhook, constructVerifiedEvent.
  destruct H as [Hgen|[header [Hgen Hcons]]]; rewrite Hgen; run; [auto|].
  rewrite Hcons. simpl. auto.
Qed.

Lemma webhook_rejects_unverified_witness :
  fst (stripeWebhook unconfigured_runtime sample_webhook_request (sample_world None))
  = Returned (Some {| statusCode := 400;
                      resBody := SendText
                        "Webhook error: The key argument must be of type string" |}).
Proof.
  exact (proj1 (webhook_rejects_unverified unconfigured_runtime sample_webhook_request
                  (sample_world None) _ (or_introl eq_refl))).
Defined.

(** X4: a verified "checkout.session.completed" event whose session id no
    purchase carries is answered 404 with the message "Purchase not
    found", and the database is left as it was. *)
Theorem completed_unknown_session rt req event w :
  dbBudget w = None ->
  verified_as rt req event ->
  event_type event = "checkout.session.completed" ->
  findOne (has_paymentId (session_id (event_data_object event)))
    (CoursePurchases (db w)) = None ->
  fst (stripeWebhook rt req w)
  = Returned (Some {| statusCode := 404; resBody := JsonMessage "Purchase not found" |})
  /\ db (snd (stripeWebhook rt req w)) = db w.
Proof.
  intros Hb Hv Ht Hp. destruct w as [d b c n]. simpl in Hb, Hp. subst b.
  destruct (completed_not_found rt req event Hv Ht d c n Hp) as [c' ->]. auto.
Qed.

Lemma completed_unknown_session_witness :
  fst (stripeWebhook unknown_session_runtime sample_webhook_request (sample_world None))
  = Returned (Some {| statusCode := 404; resBody := JsonMessage "Purchase not found" |})
  /\ db (snd (stripeWebhook unknown_session_runtime sample_webhook_request
                (sample_world None))) = sample_db.
Proof.
  exact (completed_unknown_session unknown_session_runtime sample_webhook_request
           unknown_session_event (sample_world None)
           eq_refl (fun w => eq_refl) eq_refl eq_refl).
Defined.

(** X5: a verified "checkout.session.completed" event for a purchase whose
    course document is gone is answered 500; the purchase has nevertheless
    been saved as completed, while users, courses and lectures are left
    as they were, so the buyer is not enrolled. *)
Theorem completed_course_deleted rt req event w purchase :
  dbBudget w = None ->
  verified_as rt req event ->
  event_type event = "checkout.session.completed" ->
  findOne (has_paymentId (session_id (event_data_object event)))
    (CoursePurchases (db w)) = Some purchase ->
  findOne (has_course_id (courseId purchase)) (Courses (db w)) = None ->
  let w' := snd (stripeWebhook rt req w) in
  fst (stripeWebhook rt req w)
  = Returned (Some {| statusCode := 500; resBody := JsonMessage "Internal Server Error" |})
  /\ (exists p', findOne (has_paymentId (session_id (event_data_object event)))
                   (CoursePurchases (db w')) = Some p'
                 /\ purchase_id p' = purchase_id purchase
                 /\ status p' = "completed")
  /\ Users (db w') = Users (db w)
  /\ Courses (db w') = Courses (db w)
  /\ Lectures (db w') = Lectures (db w).
Proof.
  intros Hb Hv Ht Hp Hc. destruct w as [d b c n]. simpl in Hb, Hp, Hc. subst b. cbv zeta.
  destruct (completed_dangling rt req event Hv Ht d c n purchase Hp Hc) as [c' ->].
  unfold db_saved. cbn [fst snd db Courses Lectures Users CoursePurchases].
  destruct (settle_fields (event_data_object event) purchase) as (Hid & _ & _ & _ & Hst).
  repeat split. exists (settle (event_data_object event) purchase).
  rewrite (findOne_saved_purchases _ _ _ _ Hp). auto.
Qed.

Lemma completed_course_deleted_witness :
  fst (stripeWebhook (completed_runtime (Some (of_Z 1000))) sample_webhook_request
         orphan_world)
  = Returned (Some {| statusCode := 500; resBody := JsonMessage "Internal Server Error" |})
  /\ Users (db (snd (stripeWebhook (completed_runtime (Some (of_Z 1000)))
                       sample_webhook_request orphan_world))) = Users sample_db.
Proof.
  pose proof (completed_course_deleted (completed_runtime (Some (of_Z 1000)))
                sample_webhook_request _ orphan_world orphan_purchase
                eq_refl (completed_runtime_verified _) eq_refl eq_refl eq_refl) as H.
  cbv zeta in H. destruct H as (H1 & _ & H3 & _). split; [exact H1 | exact H3].
Defined.

(** ** The query handlers *)

(** X8: [getAllPurchasedCourse] answers 200 with exactly the purchases
    whose status is "completed", in collection order, each paired with
    the course its courseId finds (or null); its 404 branch is never
    taken.  Only when the connection is lost before the query does it
    send nothing. *)
Theorem listing_returns_completed w :
  match dbBudget w with
  | Some O => fst (getAllPurchasedCourse w) = Returned None
  | _ =>
      exists l,
        fst (getAllPurchasedCourse w)
        = Returned (Some {| statusCode := 200; resBody := JsonPurchasedCourse l |})
        /\ List.map fst l = List.filter (has_status "completed") (CoursePurchases (db w))
        /\ (forall p c, In (p, c) l <->
                        In p (CoursePurchases (db w))
                        /\ status p = "completed"
                        /\ c = findOne (has_course_id (courseId p)) (Courses (db w)))
  end.
Proof.
  destruct w as [d b c n].
  assert (Hl : let l := List.map (populate_courseId d)
                          (List.filter (has_status "completed") (CoursePurchases d)) in
               List.map fst l = List.filter (has_status "completed") (CoursePurchases d)
               /\ (forall p c0, In (p, c0) l <->
                                In p (CoursePurchases d)
                                /\ status p = "completed"
                                /\ c0 = findOne (has_course_id (courseId p)) (Courses d))).
  { cbv zeta. split.
    - rewrite List.map_map. unfold populate_courseId. simpl. apply List.map_id.
    - intros p c0. rewrite List.in_map_iff. unfold populate_courseId. split.
      + intros [q [[= -> <-] Hq]]. apply List.filter_In in Hq. destruct Hq as [Hin Hs].
        apply String.eqb_eq in Hs. auto.
      + intros (Hin & Hs & ->). exists p. split; [reflexivity|].
        apply List.filter_In. split; [assumption|]. now apply String.eqb_eq. }
  unfold getAllPurchasedCourse, getAllPurchasedCourse_try, CoursePurchase_find_status_populated.
  destruct b as [[|k]|]; run; [reflexivity | |]; eexists; (split; [reflexivity|]); exact Hl.
Qed.

(** The detail query against a reachable database: its answer and the
    world it leaves. *)
Lemma detail_query_run req d c n :
  exists c',
    getCourseDetailWithPurchaseStatus req
      {| db := d; dbBudget := None; console := c; objectIds := n |}
    = (Returned (Some
         match findOne (has_course_id (detail_params_courseId req)) (Courses d) with
         | Some course =>
             {| statusCode := 200;
                resBody := JsonCoursePurchased (populate_course d course)
                  match findOne (has_user_course (detail_req_id req)
                                   (detail_params_courseId req)) (CoursePurchases d) with
                  | Some _ => true
                  | None => false
                  end |}
         | None => {| statusCode := 404; resBody := JsonMessage "course not found!" |}
         end),
       {| db := d; dbBudget := None; console := c'; objectIds := n |}).
Proof.
  unfold getCourseDetailWithPurchaseStatus, getCourseDetailWithPurchaseStatus_try,
    Course_findById_populated, CoursePurchase_findOne_user_course.
  run. destruct (findOne _ (Courses d)); simpl; destruct d; eexists; reflexivity.
Qed.

(** X9: when the course does not exist, the detail query answers 404 with
    "course not found!" and no purchased flag, also for a user who holds
    a purchase of that course. *)
Theorem detail_missing_course req w :
  dbBudget w = None ->
  findOne (has_course_id (detail_params_courseId req)) (Courses (db w)) = None ->
  fst (getCourseDetailWithPurchaseStatus req w)
  = Returned (Some {| statusCode := 404; resBody := JsonMessage "course not found!" |}).
Proof.
  intros Hb Hc. destruct w as [d b c n]. simpl in Hb, Hc. subst b.
  destruct (detail_query_run req d c n) as [c' ->]. simpl fst. now rewrite Hc.
Qed.

Lemma detail_missing_course_witness :
  findOne (has_user_course "u1" "c9") (CoursePurchases (db orphan_world))
  = Some orphan_purchase
  /\ fst (getCourseDetailWithPurchaseStatus
            {| detail_req_id := "u1"; detail_params_courseId := "c9" |} orphan_world)
     = Returned (Some {| statusCode := 404; resBody := JsonMessage "course not found!" |}).
Proof.
  split; [reflexivity|].
  exact (detail_missing_course {| detail_req_id := "u1"; detail_params_courseId := "c9" |}
           orphan_world eq_refl eq_refl).
Defined.

(** ** From checkout to the webhook and the queries *)

Lemma findOne_app_last {A} (f : A -> bool) l p :
  f p = true -> exists x, findOne f (l ++ [p]) = Some x.
Proof.
  intros Hp. apply findOne_Some_iff. exists p. split; [|assumption].
  apply List.in_or_app. right. now left.
Qed.

Lemma findOne_app_fresh {A} (f : A -> bool) l p :
  findOne f l = None -> f p = true -> findOne f (l ++ [p]) = Some p.
Proof.
  intros Hl Hp. induction l as [|x l IH]; simpl in *.
  - unfold findOne. simpl. now rewrite Hp.
  - unfold findOne in *. simpl in *. destruct (f x); [discriminate | now apply IH].
Qed.

Lemma findOneAndDelete_app_fresh {A} (f : A -> bool) l p :
  findOne f l = None -> f p = true -> findOneAndDelete f (l ++ [p]) = l.
Proof.
  intros Hl Hp. induction l as [|x l IH]; simpl in *.
  - now rewrite Hp.
  - unfold findOne in *. simpl in *. destruct (f x); [discriminate|]. now rewrite IH.
Qed.

(** The success path of [createCheckoutSession] against a reachable
    database. *)
Lemma checkout_run rt req d c n course session url :
  findOne (has_course_id (checkout_body_courseId req)) (Courses d) = Some course ->
  checkout_sessions_create (stripe rt)
    (checkout_params course (checkout_body_courseId req) (checkout_req_id req))
  = inr session ->
  truthy_string (session_url session) = Some url ->
  createCheckoutSession rt req {| db := d; dbBudget := None; console := c; objectIds := n |}
  = (Returned (Some {| statusCode := 200; resBody := JsonSuccessUrl true url |}),
     {| db := {| Courses := Courses d; Lectures := Lectures d; Users := Users d;
                 CoursePurchases :=
                   (CoursePurchases d ++ [checkout_purchase rt n req course session])%list |};
        dbBudget := None; console := c; objectIds := S n |}).
Proof.
  intros Hc Hs Hu.
  unfold createCheckoutSession, Course_findById, new_CoursePurchase, CoursePurchase_save_new.
  run. rewrite Hc. run. rewrite Hs. run. rewrite Hu. run. reflexivity.
Qed.

(** The expired branch against a reachable database. *)
Lemma expired_run rt req event d c n :
  verified_as rt req event ->
  event_type event = "checkout.session.expired" ->
  exists c',
    stripeWebhook rt req {| db := d; dbBudget := None; console := c; objectIds := n |}
    = (ok_empty,
       {| db := {| Courses := Courses d; Lectures := Lectures d; Users := Users d;
                   CoursePurchases :=
                     findOneAndDelete (has_paymentId (session_id (event_data_object event)))
                       (CoursePurchases d) |};
          dbBudget := None; console := c'; objectIds := n |}).
Proof.
  intros Hv Ht. rewrite (stripeWebhook_verified _ _ _ _ Hv).
  unfold dispatchEvent. rewrite Ht. simpl String.eqb. cbv iota.
  unfold on_checkout_session_expired, CoursePurchase_findOneAndDelete_paymentId. run.
  eexists. reflexivity.
Qed.

Section CheckoutFlow.
Variables (rt : Runtime) (req : CheckoutRequest) (w : World).
Variables (course : Course) (session : CheckoutSession) (url : string).
Hypothesis Hbudget : dbBudget w = None.
Hypothesis Hcourse :
  findOne (has_course_id (checkout_body_courseId req)) (Courses (db w)) = Some course.
Hypothesis Hsession :
  checkout_sessions_create (stripe rt)
    (checkout_params course (checkout_body_courseId req) (checkout_req_id req))
  = inr session.
Hypothesis Hurl : truthy_string (session_url session) = Some url.

Let w1 := snd (createCheckoutSession rt req w).

(** X10: right after a successful [createCheckoutSession], before any
    payment event, the detail query of the same user for the same course
    already answers purchased = true. *)
Theorem checkout_then_detail_purchased :
  exists detail,
    fst (getCourseDetailWithPurchaseStatus
           {| detail_req_id := checkout_req_id req;
              detail_params_courseId := checkout_body_courseId req |} w1)
    = Returned (Some {| statusCode := 200; resBody := JsonCoursePurchased detail true |}).
Proof.
  subst w1. destruct w as [d b c n]. simpl in Hbudget, Hcourse. subst b.
  rewrite (checkout_run rt req d c n course session url Hcourse Hsession Hurl).
  cbn [snd].
  match goal with
  | |- context [getCourseDetailWithPurchaseStatus ?r {| db := ?d1; dbBudget := None;
                                                        console := ?c1; objectIds := ?n1 |}] =>
      destruct (detail_query_run r d1 c1 n1) as [c' ->]
  end.
  cbn [fst detail_req_id detail_params_courseId Courses CoursePurchases].
  rewrite Hcourse.
  destruct (findOne_app_last
              (has_user_course (checkout_req_id req) (checkout_body_courseId req))
              (CoursePurchases d) (checkout_purchase rt n req course session)) as [x Hx].
  { unfold has_user_course, checkout_purchase. cbn. now rewrite !String.eqb_refl. }
  rewrite Hx. eexists. reflexivity.
Qed.

Variables (wreq : WebhookRequest) (event : StripeEvent).
Hypothesis Hverified : verified_as rt wreq event.
Hypothesis Hsame : session_id (event_data_object event) = session_id session.
Hypothesis Hfresh :
  findOne (has_paymentId (session_id session)) (CoursePurchases (db w)) = None.

(** X11: if the session id is new to the purchases, a successful
    [createCheckoutSession] followed by the "checkout.session.expired"
    event of that session leaves the database exactly as it was before
    the checkout. *)
Theorem checkout_then_expired_restores :
  event_type event = "checkout.session.expired" ->
  fst (stripeWebhook rt wreq w1) = ok_empty
  /\ db (snd (stripeWebhook rt wreq w1)) = db w.
Proof.
  intros Ht. subst w1. destruct w as [d b c n]. simpl in Hbudget, Hcourse, Hfresh. subst b.
  rewrite (checkout_run rt req d c n course session url Hcourse Hsession Hurl).
  cbn [snd].
  match goal with
  | |- context [stripeWebhook rt wreq {| db := ?d1; dbBudget := None;
                                         console := ?c1; objectIds := ?n1 |}] =>
      destruct (expired_run rt wreq event d1 c1 n1 Hverified Ht) as [c' ->]
  end.
  cbn [fst snd db Courses Lectures Users CoursePurchases]. split; [reflexivity|].
  rewrite Hsame, findOneAndDelete_app_fresh; [now destruct d | assumption |].
  unfold has_paymentId, checkout_purchase. cbn. apply String.eqb_refl.
Qed.

(** X12: if the session id is new to the purchases and the buyer's user
    document exists, a successful [createCheckoutSession] followed by the
    "checkout.session.completed" event of that session is acknowledged
    with 200 and leaves the purchase created by the checkout completed,
    the course id in the buyer's enrolledCourses and the buyer's id in
    the course's enrolledStudents. *)
Theorem checkout_then_completed_enrolls user :
  event_type event = "checkout.session.completed" ->
  findOne (has_user_id (checkout_req_id req)) (Users (db w)) = Some user ->
  let w2 := snd (stripeWebhook rt wreq w1) in
  fst (stripeWebhook rt wreq w1) = ok_empty
  /\ (exists p, findOne (has_paymentId (session_id session)) (CoursePurchases (db w2))
                = Some p
                /\ purchase_id p = newObjectId rt (objectIds w)
                /\ userId p = checkout_req_id req
                /\ courseId p = checkout_body_courseId req
                /\ status p = "completed")
  /\ (exists u, findOne (has_user_id (checkout_req_id req)) (Users (db w2)) = Some u
                /\ In (checkout_body_courseId req) (enrolledCourses u))
  /\ (exists c, findOne (has_course_id (checkout_body_courseId req)) (Courses (db w2))
                = Some c
                /\ In (checkout_req_id req) (enrolledStudents c)).
Proof.
  intros Ht Hu. subst w1. destruct w as [d b c n].
  simpl in Hbudget, Hcourse, Hfresh, Hu. subst b. cbv zeta.
  rewrite (checkout_run rt req d c n course session url Hcourse Hsession Hurl).
  cbn [snd objectIds].
  set (p0 := checkout_purchase rt n req course session).
  set (d1 := {| Courses := Courses d; Lectures := Lectures d; Users := Users d;
                CoursePurchases := (CoursePurchases d ++ [p0])%list |}).
  assert (Hp0 : findOne (has_paymentId (session_id (event_data_object event)))
                  (CoursePurchases d1) = Some p0).
  { rewrite Hsame. subst d1. cbn [CoursePurchases].
    apply findOne_app_fresh; [assumption|].
    unfold has_paymentId, p0, checkout_purchase. cbn. apply String.eqb_refl. }
  assert (Hc0 : findOne (has_course_id (courseId p0)) (Courses d1) = Some course)
    by exact Hcourse.
  destruct (completed_enrolled rt wreq event Hverified Ht d1 c (S n) p0 course Hp0 Hc0)
    as [c' ->].
  pose proof (findOne_course_id _ _ _ Hcourse) as Hcid.
  destruct (settle_fields (event_data_object event) p0) as (Hid & Hcr & Huid & _ & Hst).
  unfold db_enrolled. cbn [fst snd db Courses Lectures Users CoursePurchases].
  split; [reflexivity|]. split; [|split].
  - exists (settle (event_data_object event) p0).
    rewrite <- Hsame, (findOne_saved_purchases _ _ _ _ Hp0). auto.
  - rewrite Huid. change (userId p0) with (checkout_req_id req).
    rewrite findOne_updateOne by (intros x Hx; exact Hx).
    subst d1. cbn [Users]. rewrite Hu. simpl. eexists. split; [reflexivity|].
    cbn. rewrite Hcid. apply addToSet_In.
  - rewrite Huid, Hcid. change (userId p0) with (checkout_req_id req).
    rewrite findOne_updateOne by (intros x Hx; exact Hx).
    subst d1. cbn [Courses]. rewrite Hcourse. simpl. eexists. split; [reflexivity|].
    cbn. apply addToSet_In.
Qed.

End CheckoutFlow.

Lemma checkout_then_detail_purchased_witness :
  exists detail,
    fst (getCourseDetailWithPurchaseStatus sample_detail_request
           (snd (createCheckoutSession (flow_runtime "checkout.session.expired")
                   sample_checkout_request fresh_world)))
    = Returned (Some {| statusCode := 200; resBody := JsonCoursePurchased detail true |}).
Proof.
  exact (checkout_then_detail_purchased (flow_runtime "checkout.session.expired")
           sample_checkout_request fresh_world sample_course flow_session
           "https://checkout.stripe.com/c/pay/cs_1" eq_refl eq_refl eq_refl eq_refl).
Defined.

Lemma checkout_then_expired_restores_witness :
  db (snd (stripeWebhook (flow_runtime "checkout.session.expired") sample_webhook_request
             (snd (createCheckoutSession (flow_runtime "checkout.session.expired")
                     sample_checkout_request fresh_world))))
  = fresh_db.
Proof.
  exact (proj2 (checkout_then_expired_restores (flow_runtime "checkout.session.expired")
                  sample_checkout_request fresh_world sample_course flow_session
                  "https://checkout.stripe.com/c/pay/cs_1" eq_refl eq_refl eq_refl eq_refl
                  sample_webhook_request _ (fun w => eq_refl) eq_refl eq_refl eq_refl)).
Defined.

Lemma checkout_then_completed_enrolls_witness :
  fst (stripeWebhook (flow_runtime "checkout.session.completed") sample_webhook_request
         (snd (createCheckoutSession (flow_runtime "checkout.session.completed")
                 sample_checkout_request fresh_world)))
  = ok_empty.
Proof.
  exact (proj1 (checkout_then_completed_enrolls (flow_runtime "checkout.session.completed")
                  sample_checkout_request fresh_world sample_course flow_session
                  "https://checkout.stripe.com/c/pay/cs_1" eq_refl eq_refl eq_refl eq_refl
                  sample_webhook_request _ (fun w => eq_refl) eq_refl eq_refl
                  sample_user eq_refl eq_refl)).
Defined.

(** ** Redelivery after a failed delivery *)

Lemma db_enrolled_same_course p c c' d :
  course_id c' = course_id c -> lectures c' = lectures c ->
  db_enrolled p c' d = db_enrolled p c d.
Proof. intros Hi Hl. unfold db_enrolled. now rewrite Hi, Hl. Qed.

Lemma db_enrolled_partial p c j d :
  db_enrolled p c (partial_db p c j d) = db_enrolled p c d.
Proof.
  unfold partial_db, db_enrolled, saved_purchases.
  cbn [Courses Lectures Users CoursePurchases]. f_equal.
  - destruct (4 <=? j)%nat; [|reflexivity].
    apply updateOne_idempotent.
    + intros x Hx. exact Hx.
    + intros x _. unfold set_enrolledStudents. cbn. now rewrite addToSet_idempotent.
  - destruct (1 <=? j)%nat; [|reflexivity].
    destruct (0 <? _)%nat; [|reflexivity].
    apply updateMany_idempotent; reflexivity.
  - destruct (3 <=? j)%nat; [|reflexivity].
    apply updateOne_idempotent.
    + intros x Hx. exact Hx.
    + intros x _. unfold set_enrolledCourses. cbn. now rewrite addToSet_idempotent.
  - destruct (2 <=? j)%nat; [apply save_again | reflexivity].
Qed.

Section Redelivery.
Variables (rt : Runtime) (req : WebhookRequest) (event : StripeEvent).
Hypothesis Hverified : verified_as rt req event.
Hypothesis Htype : event_type event = "checkout.session.completed".
Variables (d : Db) (purchase : CoursePurchase).
Hypothesis Hpurchase :
  findOne (has_paymentId (session_id (event_data_object event))) (CoursePurchases d)
  = Some purchase.

Let p' := settle (event_data_object event) purchase.

(** Whatever the budget, a delivery stops after some prefix of the
    writes. *)
Lemma delivery_reaches_partial course b c n :
  findOne (has_course_id (courseId purchase)) (Courses d) = Some course ->
  exists j b' c',
    snd (stripeWebhook rt req {| db := d; dbBudget := b; console := c; objectIds := n |})
    = {| db := partial_db p' course j d; dbBudget := b'; console := c'; objectIds := n |}.
Proof.
  intros Hc. rewrite (stripeWebhook_verified _ _ _ _ Hverified).
  unfold dispatchEvent. rewrite Htype. simpl String.eqb. cbv iota.
  unfold on_checkout_session_completed, CoursePurchase_findOne_paymentId_populated,
    CoursePurchase_save, populated_course_id, Lecture_updateMany_in_set_isPreviewFree,
    User_findByIdAndUpdate_addToSet_enrolledCourses,
    Course_findByIdAndUpdate_addToSet_enrolledStudents.
  subst p'.
  destruct (lectures course) as [|i ls] eqn:El;
    destruct b as [[|[|[|[|[|k]]]]]|]; run; rewrite ?Hpurchase;
    unfold populate_courseId; simpl; rewrite ?Hc; simpl; rewrite ?El; simpl;
    first
      [ solve [exists 0%nat; do 2 eexists; unfold partial_db, db_enrolled, saved_purchases;
               rewrite ?El; simpl; destruct d; reflexivity]
      | solve [exists 1%nat; do 2 eexists; unfold partial_db, db_enrolled, saved_purchases;
               rewrite ?El; simpl; reflexivity]
      | solve [exists 2%nat; do 2 eexists; unfold partial_db, db_enrolled, saved_purchases;
               rewrite ?El; simpl; reflexivity]
      | solve [exists 3%nat; do 2 eexists; unfold partial_db, db_enrolled, saved_purchases;
               rewrite ?El; simpl; reflexivity]
      | solve [exists 4%nat; do 2 eexists; unfold partial_db, db_enrolled, saved_purchases;
               rewrite ?El; simpl; reflexivity] ].
Qed.

(** A delivery over a reachable connection completes the writes from any
    such prefix. *)
Lemma redelivery_from_partial course j c n :
  findOne (has_course_id (courseId purchase)) (Courses d) = Some course ->
  exists c',
    stripeWebhook rt req
      {| db := partial_db p' course j d; dbBudget := None; console := c; objectIds := n |}
    = (ok_empty,
       {| db := db_enrolled p' course d; dbBudget := None; console := c'; objectIds := n |}).
Proof.
  intros Hc.
  destruct (settle_fields (event_data_object event) purchase) as (_ & Hcid & _).
  fold p' in Hcid.
  assert (Hq : exists q,
             findOne (has_paymentId (session_id (event_data_object event)))
               (CoursePurchases (partial_db p' course j d)) = Some q
             /\ settle (event_data_object event) q = p'
             /\ courseId q = courseId purchase).
  { unfold partial_db. cbn [CoursePurchases]. destruct (2 <=? j)%nat.
    - exists p'. split; [apply findOne_saved_purchases; assumption|].
      split; [apply settle_idempotent | assumption].
    - exists purchase. auto. }
  destruct Hq as (q & Hq & Hsettle & Hqc).
  assert (Hcj : exists cj,
             findOne (has_course_id (courseId q)) (Courses (partial_db p' course j d))
             = Some cj
             /\ course_id cj = course_id course /\ lectures cj = lectures course).
  { rewrite Hqc. unfold partial_db. cbn [Courses]. destruct (4 <=? j)%nat.
    - unfold db_enrolled. cbn [Courses].
      pose proof (findOne_course_id _ _ _ Hc) as Hid0. rewrite Hid0.
      rewrite findOne_updateOne by (intros x Hx; exact Hx). rewrite Hc.
      eexists. split; [reflexivity|]. split; [exact Hid0 | reflexivity].
    - exists course. auto. }
  destruct Hcj as (cj & Hcj & Hid & Hlec).
  destruct (completed_enrolled rt req event Hverified Htype
              (partial_db p' course j d) c n q cj Hq Hcj) as [c' ->].
  rewrite Hsettle, (db_enrolled_same_course _ _ _ _ Hid Hlec), db_enrolled_partial.
  eexists. reflexivity.
Qed.

(** With the course gone, a delivery either writes nothing or saves the
    purchase. *)
Lemma delivery_dangling_partial b c n :
  findOne (has_course_id (courseId purchase)) (Courses d) = None ->
  exists d1 b' c',
    snd (stripeWebhook rt req {| db := d; dbBudget := b; console := c; objectIds := n |})
    = {| db := d1; dbBudget := b'; console := c'; objectIds := n |}
    /\ (d1 = d \/ d1 = db_saved p' d).
Proof.
  intros Hc. rewrite (stripeWebhook_verified _ _ _ _ Hverified).
  unfold dispatchEvent. rewrite Htype. simpl String.eqb. cbv iota.
  unfold on_checkout_session_completed, CoursePurchase_findOne_paymentId_populated,
    CoursePurchase_save, populated_course_id.
  subst p'.
  destruct b as [[|[|k]]|]; run; rewrite ?Hpurchase;
    unfold populate_courseId; simpl; rewrite ?Hc; simpl;
    do 3 eexists; (split; [reflexivity|]); auto.
Qed.

Lemma redelivery_dangling d1 c n :
  findOne (has_course_id (courseId purchase)) (Courses d) = None ->
  d1 = d \/ d1 = db_saved p' d ->
  exists c',
    snd (stripeWebhook rt req {| db := d1; dbBudget := None; console := c; objectIds := n |})
    = {| db := db_saved p' d; dbBudget := None; console := c'; objectIds := n |}.
Proof.
  intros Hc [->| ->].
  - destruct (completed_dangling rt req event Hverified Htype d c n purchase Hpurchase Hc)
      as [c' ->]. eexists. reflexivity.
  - destruct (settle_fields (event_data_object event) purchase) as (_ & Hcid & _).
    fold p' in Hcid.
    assert (Hq : findOne (has_paymentId (session_id (event_data_object event)))
                   (CoursePurchases (db_saved p' d)) = Some p')
      by (apply findOne_saved_purchases; assumption).
    assert (Hc1 : findOne (has_course_id (courseId p')) (Courses (db_saved p' d)) = None)
      by (rewrite Hcid; exact Hc).
    destruct (completed_dangling rt req event Hverified Htype
                (db_saved p' d) c n p' Hq Hc1) as [c' ->].
    subst p'. rewrite settle_idempotent, db_saved_again. eexists. reflexivity.
Qed.

End Redelivery.

(** A delivery that finds no purchase writes nothing, whatever the
    budget. *)
Lemma delivery_not_found rt req event d b c n :
  verified_as rt req event ->
  event_type event = "checkout.session.completed" ->
  findOne (has_paymentId (session_id (event_data_object event))) (CoursePurchases d) = None ->
  exists b' c',
    snd (stripeWebhook rt req {| db := d; dbBudget := b; console := c; objectIds := n |})
    = {| db := d; dbBudget := b'; console := c'; objectIds := n |}.
Proof.
  intros Hv Ht Hp. rewrite (stripeWebhook_verified _ _ _ _ Hv).
  unfold dispatchEvent. rewrite Ht. simpl String.eqb. cbv iota.
  unfold on_checkout_session_completed, CoursePurchase_findOne_paymentId_populated.
  destruct b as [[|k]|]; run; rewrite ?Hp; simpl; destruct d; do 2 eexists; reflexivity.
Qed.

(** X13: however far a delivery of a verified "checkout.session.completed"
    event got before the connection was lost, delivering the same event
    again over a reachable connection ends in the database that a single
    delivery over a reachable connection would have produced. *)
Theorem completed_redelivery_repairs rt req event w :
  verified_as rt req event ->
  event_type event = "checkout.session.completed" ->
  let failed := snd (stripeWebhook rt req w) in
  db (snd (stripeWebhook rt req (with_dbBudget None failed)))
  = db (snd (stripeWebhook rt req (with_dbBudget None w))).
Proof.
  intros Hv Ht. destruct w as [d b c n]. cbv zeta. unfold with_dbBudget at 2. cbn [db console objectIds].
  destruct (findOne (has_paymentId (session_id (event_data_object event)))
              (CoursePurchases d)) as [p|] eqn:Hp.
  - destruct (findOne (has_course_id (courseId p)) (Courses d)) as [course|] eqn:Hc.
    + destruct (delivery_reaches_partial rt req event Hv Ht d p Hp course b c n Hc)
        as (j & b' & c' & ->).
      unfold with_dbBudget. cbn [db console objectIds].
      destruct (redelivery_from_partial rt req event Hv Ht d p Hp course j c' n Hc)
        as [c2 ->].
      destruct (completed_enrolled rt req event Hv Ht d c n p course Hp Hc) as [c3 ->].
      reflexivity.
    + destruct (delivery_dangling_partial rt req event Hv Ht d p Hp b c n Hc)
        as (d1 & b' & c' & -> & Hd1).
      unfold with_dbBudget. cbn [db console objectIds].
      destruct (redelivery_dangling rt req event Hv Ht d p Hp d1 c' n Hc Hd1) as [c2 ->].
      destruct (completed_dangling rt req event Hv Ht d c n p Hp Hc) as [c3 ->].
      reflexivity.
  - destruct (delivery_not_found rt req event d b c n Hv Ht Hp) as (b' & c' & ->).
    unfold with_dbBudget. cbn [db console objectIds].
    destruct (completed_not_found rt req event Hv Ht d c' n Hp) as [c2 ->].
    destruct (completed_not_found rt req event Hv Ht d c n Hp) as [c3 ->].
    reflexivity.
Qed.

Lemma completed_redelivery_repairs_witness :
  db (snd (stripeWebhook (completed_runtime (Some (of_Z 1000))) sample_webhook_request
             (with_dbBudget None
                (snd (stripeWebhook (completed_runtime (Some (of_Z 1000)))
                        sample_webhook_request (sample_world (Some 3%nat)))))))
  = db (snd (stripeWebhook (completed_runtime (Some (of_Z 1000))) sample_webhook_request
               (with_dbBudget None (sample_world (Some 3%nat))))).
Proof.
  exact (completed_redelivery_repairs (completed_runtime (Some (of_Z 1000)))
           sample_webhook_request _ (sample_world (Some 3%nat))
           (completed_runtime_verified _) eq_refl).
Defined.

(** ** Lost connections *)

(** X14: the writes of the completed branch are not atomic.  When the
    connection is lost right after the purchase was saved, the webhook
    answers 500 with the purchase already completed (and the course's
    lectures already free to preview), while the buyer is in no
    enrolledCourses and the course's enrolledStudents is unchanged. *)
Theorem completed_interrupted_after_save rt req event w purchase course :
  verified_as rt req event ->
  event_type event = "checkout.session.completed" ->
  findOne (has_paymentId (session_id (event_data_object event)))
    (CoursePurchases (db w)) = Some purchase ->
  findOne (has_course_id (courseId purchase)) (Courses (db w)) = Some course ->
  dbBudget w = Some (if (0 <? List.length (lectures course))%nat then 3 else 2)%nat ->
  let w' := snd (stripeWebhook rt req w) in
  fst (stripeWebhook rt req w)
  = Returned (Some {| statusCode := 500; resBody := JsonMessage "Internal Server Error" |})
  /\ (exists p', findOne (has_paymentId (session_id (event_data_object event)))
                   (CoursePurchases (db w')) = Some p'
                 /\ status p' = "completed")
  /\ (forall l, In l (Lectures (db w')) -> In (lecture_id l) (lectures course) ->
                isPreviewFree l = true)
  /\ Users (db w') = Users (db w)
  /\ Courses (db w') = Courses (db w).
Proof.
  intros Hv Ht Hp Hc Hb. destruct w as [d b c n]. simpl in Hp, Hc, Hb. subst b. cbv zeta.
  rewrite (stripeWebhook_verified _ _ _ _ Hv).
  unfold dispatchEvent. rewrite Ht. simpl String.eqb. cbv iota.
  unfold on_checkout_session_completed, CoursePurchase_findOne_paymentId_populated,
    CoursePurchase_save, populated_course_id, Lecture_updateMany_in_set_isPreviewFree,
    User_findByIdAndUpdate_addToSet_enrolledCourses,
    Course_findByIdAndUpdate_addToSet_enrolledStudents.
  pose proof (findOne_saved_purchases _ (event_data_object event) _ _ Hp) as Hsaved.
  destruct (settle_fields (event_data_object event) purchase) as (_ & _ & _ & _ & Hst).
  unfold saved_purchases in Hsaved.
  destruct (lectures course) as [|i ls] eqn:El; run; rewrite Hp;
    unfold populate_courseId; simpl; rewrite Hc; simpl; rewrite El; simpl.
  - repeat split; [eexists; split; [exact Hsaved | exact Hst] | intros l _ []].
  - repeat split; [eexists; split; [exact Hsaved | exact Hst] |].
    intros l Hl Hin. unfold updateMany in Hl. apply List.in_map_iff in Hl.
    destruct Hl as [x [Hx _]].
    destruct (String.eqb (lecture_id x) i || op_in (lecture_id x) ls)%bool eqn:E;
      subst l; [reflexivity|].
    change (op_in (lecture_id x) (i :: ls) = false) in E.
    assert (Hin' : In (lecture_id x) (i :: ls)) by exact Hin.
    apply op_in_In in Hin'. congruence.
Qed.

Lemma completed_interrupted_after_save_witness :
  fst (stripeWebhook (completed_runtime (Some (of_Z 1000))) sample_webhook_request
         (sample_world (Some 3%nat)))
  = Returned (Some {| statusCode := 500; resBody := JsonMessage "Internal Server Error" |})
  /\ Users (db (snd (stripeWebhook (completed_runtime (Some (of_Z 1000)))
                       sample_webhook_request (sample_world (Some 3%nat)))))
     = Users sample_db.
Proof.
  pose proof (completed_interrupted_after_save (completed_runtime (Some (of_Z 1000)))
                sample_webhook_request _ (sample_world (Some 3%nat))
                sample_purchase sample_course
                (completed_runtime_verified _) eq_refl eq_refl eq_refl eq_refl) as H.
  cbv zeta in H. destruct H as (H1 & _ & _ & H4 & _). split; [exact H1 | exact H4].
Defined.

(** X15: when the connection is already lost, a verified
    "checkout.session.completed" or "checkout.session.expired" event is
    answered 500 with "Internal Server Error" and nothing is written. *)
Theorem webhook_without_connection rt req event w :
  verified_as rt req event ->
  event_type event = "checkout.session.completed"
  \/ event_type event = "checkout.session.expired" ->
  dbBudget w = Some 0%nat ->
  fst (stripeWebhook rt req w)
  = Returned (Some {| statusCode := 500; resBody := JsonMessage "Internal Server Error" |})
  /\ db (snd (stripeWebhook rt req w)) = db w.
Proof.
  intros Hv Ht Hb. destruct w as [d b c n]. simpl in Hb. subst b.
  rewrite (stripeWebhook_verified _ _ _ _ Hv). unfold dispatchEvent.
  destruct Ht as [Ht|Ht]; rewrite Ht; simpl String.eqb; cbv iota.
  - unfold on_checkout_session_completed, CoursePurchase_findOne_paymentId_populated.
    run. auto.
  - unfold on_checkout_session_expired, CoursePurchase_findOneAndDelete_paymentId.
    run. auto.
Qed.

Lemma webhook_without_connection_witness :
  fst (stripeWebhook expired_runtime sample_webhook_request (sample_world (Some 0%nat)))
  = Returned (Some {| statusCode := 500; resBody := JsonMessage "Internal Server Error" |})
  /\ db (snd (stripeWebhook expired_runtime sample_webhook_request
                (sample_world (Some 0%nat)))) = sample_db.
Proof.
  exact (webhook_without_connection expired_runtime sample_webhook_request
           (sample_event "checkout.session.expired" None) (sample_world (Some 0%nat))
           (fun w => eq_refl) (or_intror eq_refl) eq_refl).
Defined.

(** X16: a provider session can outlive its purchase.  When the provider
    has created the session but the connection is lost before the
    purchase is saved, [createCheckoutSession] answers 500 and stores
    nothing; if that session is then paid, its
    "checkout.session.completed" event is answered 404 and enrolls
    nobody, the database staying as it was before the checkout. *)
Theorem checkout_lost_then_completed rt req w course session url wreq event :
  dbBudget w = Some 1%nat ->
  findOne (has_course_id (checkout_body_courseId req)) (Courses (db w)) = Some course ->
  checkout_sessions_create (stripe rt)
    (checkout_params course (checkout_body_courseId req) (checkout_req_id req))
  = inr session ->
  truthy_string (session_url session) = Some url ->
  findOne (has_paymentId (session_id session)) (CoursePurchases (db w)) = None ->
  verified_as rt wreq event ->
  event_type event = "checkout.session.completed" ->
  session_id (event_data_object event) = session_id session ->
  let w1 := with_dbBudget None (snd (createCheckoutSession rt req w)) in
  fst (createCheckoutSession rt req w)
  = Returned (Some {| statusCode := 500; resBody := JsonSuccessMessage false "Server error" |})
  /\ fst (stripeWebhook rt wreq w1)
     = Returned (Some {| statusCode := 404; resBody := JsonMessage "Purchase not found" |})
  /\ db (snd (stripeWebhook rt wreq w1)) = db w.
Proof.
  intros Hb Hc Hs Hu Hf Hv Ht Hsame. destruct w as [d b c n].
  simpl in Hb, Hc, Hf. subst b. cbv zeta.
  assert (Hrun : createCheckoutSession rt req
                   {| db := d; dbBudget := Some 1%nat; console := c; objectIds := n |}
                 = (Returned (Some {| statusCode := 500;
                                      resBody := JsonSuccessMessage false "Server error" |}),
                    {| db := d; dbBudget := Some 0%nat;
                       console := (c ++ [[LogError MongooseError]])%list;
                       objectIds := S n |})).
  { unfold createCheckoutSession, Course_findById, new_CoursePurchase,
      CoursePurchase_save_new.
    run. rewrite Hc. run. rewrite Hs. run. rewrite Hu. run. now destruct d. }
  rewrite Hrun. unfold with_dbBudget. cbn [fst snd db console objectIds].
  rewrite <- Hsame in Hf.
  destruct (completed_not_found rt wreq event Hv Ht d
              (c ++ [[LogError MongooseError]])%list (S n) Hf) as [c' ->].
  auto.
Qed.

Lemma checkout_lost_then_completed_witness :
  fst (createCheckoutSession (flow_runtime "checkout.session.completed")
         sample_checkout_request
         {| db := fresh_db; dbBudget := Some 1%nat; console := []; objectIds := 0 |})
  = Returned (Some {| statusCode := 500; resBody := JsonSuccessMessage false "Server error" |}).
Proof.
  exact (proj1 (checkout_lost_then_completed (flow_runtime "checkout.session.completed")
                  sample_checkout_request
                  {| db := fresh_db; dbBudget := Some 1%nat; console := []; objectIds := 0 |}
                  sample_course flow_session "https://checkout.stripe.com/c/pay/cs_1"
                  sample_webhook_request _
                  eq_refl eq_refl eq_refl eq_refl eq_refl (fun w => eq_refl)
                  eq_refl eq_refl)).
Defined.

(** ** What an expired session removes *)

Lemma findOneAndDelete_matching {A} (f : A -> bool) l :
  List.length (List.filter f (findOneAndDelete f l))
  = Nat.pred (List.length (List.filter f l)).
Proof.
  induction l as [|x l IH]; simpl; [reflexivity|].
  destruct (f x) eqn:E; simpl; [reflexivity|]. now rewrite E.
Qed.

Lemma findOneAndDelete_others {A} (f : A -> bool) l :
  List.filter (fun x => negb (f x)) (findOneAndDelete f l)
  = List.filter (fun x => negb (f x)) l.
Proof.
  induction l as [|x l IH]; simpl; [reflexivity|].
  destruct (f x) eqn:E; simpl; [reflexivity|]. now rewrite E, IH.
Qed.

(** X17: a verified "checkout.session.expired" event removes exactly one
    of the purchases carrying the session id when there is any, whatever
    its status (a completed one too); further purchases with the same
    paymentId survive, and the purchases with another paymentId are all
    kept, in order. *)
Theorem expired_removes_exactly_one rt req event w :
  dbBudget w = None ->
  verified_as rt req event ->
  event_type event = "checkout.session.expired" ->
  let sid := session_id (event_data_object event) in
  let after := CoursePurchases (db (snd (stripeWebhook rt req w))) in
  List.length (List.filter (has_paymentId sid) after)
  = Nat.pred (List.length (List.filter (has_paymentId sid) (CoursePurchases (db w))))
  /\ List.filter (fun p => negb (has_paymentId sid p)) after
     = List.filter (fun p => negb (has_paymentId sid p)) (CoursePurchases (db w)).
Proof.
  intros Hb Hv Ht. destruct w as [d b c n]. simpl in Hb. subst b. cbv zeta.
  destruct (expired_run rt req event d c n Hv Ht) as [c' ->].
  cbn [snd db CoursePurchases].
  split; [apply findOneAndDelete_matching | apply findOneAndDelete_others].
Qed.

Lemma expired_removes_exactly_one_witness :
  List.length
    (List.filter (has_paymentId "cs_1")
       (CoursePurchases (db (snd (stripeWebhook expired_runtime sample_webhook_request
                                    (sample_world None))))))
  = 0%nat.
Proof.
  exact (proj1 (expired_removes_exactly_one expired_runtime sample_webhook_request
                  (sample_event "checkout.session.expired" None) (sample_world None)
                  eq_refl (fun w => eq_refl) eq_refl)).
Defined.

(** X18: enrollment is not undone.  When a purchase has been completed by
    its "checkout.session.completed" event and the
    "checkout.session.expired" event of the same session is processed
    afterwards, one purchase document is deleted, while the buyer stays
    in the course's enrolledStudents and the course in the buyer's
    enrolledCourses. *)
Theorem completed_then_expired_keeps_enrollment
    rt req1 req2 completed expired w purchase course user :
  dbBudget w = None ->
  verified_as rt req1 completed ->
  event_type completed = "checkout.session.completed" ->
  verified_as rt req2 expired ->
  event_type expired = "checkout.session.expired" ->
  session_id (event_data_object expired) = session_id (event_data_object completed) ->
  findOne (has_paymentId (session_id (event_data_object completed)))
    (CoursePurchases (db w)) = Some purchase ->
  findOne (has_course_id (courseId purchase)) (Courses (db w)) = Some course ->
  findOne (has_user_id (userId purchase)) (Users (db w)) = Some user ->
  let w2 := snd (stripeWebhook rt req2 (snd (stripeWebhook rt req1 w))) in
  S (List.length (CoursePurchases (db w2))) = List.length (CoursePurchases (db w))
  /\ (exists u, findOne (has_user_id (userId purchase)) (Users (db w2)) = Some u
                /\ In (courseId purchase) (enrolledCourses u))
  /\ (exists c, findOne (has_course_id (courseId purchase)) (Courses (db w2)) = Some c
                /\ In (userId purchase) (enrolledStudents c)).
Proof.
  intros Hb Hv1 Ht1 Hv2 Ht2 Hsame Hp Hc Hu.
  destruct w as [d b c n]. simpl in Hb, Hp, Hc, Hu. subst b. cbv zeta.
  destruct (completed_enrolled rt req1 completed Hv1 Ht1 d c n purchase course Hp Hc)
    as [c1 ->].
  cbn [snd].
  destruct (expired_run rt req2 expired
              (db_enrolled (settle (event_data_object completed) purchase) course d)
              c1 n Hv2 Ht2) as [c2 ->].
  pose proof (findOne_course_id _ _ _ Hc) as Hcid.
  destruct (settle_fields (event_data_object completed) purchase) as (_ & _ & Huid & _).
  pose proof (findOne_saved_purchases _ (event_data_object completed) _ _ Hp) as Hsaved.
  unfold db_enrolled. cbn [snd db Courses Lectures Users CoursePurchases].
  split; [|split].
  - rewrite Hsame.
    destruct (findOneAndDelete_found _ _ _ Hsaved) as (l1 & l2 & Hl & -> & _).
    rewrite <- (List.length_map purchase_id (CoursePurchases d)).
    unfold saved_purchases in Hl.
    rewrite <- (saved_ids (settle (event_data_object completed) purchase)), Hl.
    rewrite List.length_map, !List.length_app. simpl. lia.
  - rewrite Huid, Hcid. rewrite findOne_updateOne by (intros x Hx; exact Hx).
    rewrite Hu. simpl. eexists. split; [reflexivity|]. cbn. apply addToSet_In.
  - rewrite Huid, Hcid. rewrite findOne_updateOne by (intros x Hx; exact Hx).
    rewrite Hc. simpl. eexists. split; [reflexivity|]. cbn. apply addToSet_In.
Qed.

Lemma completed_then_expired_keeps_enrollment_witness :
  let w2 := snd (stripeWebhook replay_runtime sample_webhook_request
                   (snd (stripeWebhook replay_runtime null_webhook_request
                           (sample_world None)))) in
  S (List.length (CoursePurchases (db w2))) = 1%nat
  /\ exists u, findOne (has_user_id "u1") (Users (db w2)) = Some u
               /\ In "c1" (enrolledCourses u).
Proof.
  pose proof (completed_then_expired_keeps_enrollment replay_runtime
                null_webhook_request sample_webhook_request
                (sample_event "checkout.session.completed" (Some (of_Z 1000)))
                (sample_event "checkout.session.expired" None)
                (sample_world None) sample_purchase sample_course sample_user
                eq_refl (fun w => eq_refl) eq_refl (fun w => eq_refl) eq_refl eq_refl
                eq_refl eq_refl eq_refl) as H.
  cbv zeta in H |- *. destruct H as (H1 & H2 & _). split; [exact H1 | exact H2].
Defined.

(** ** From a completed session to the listing *)

Lemma listing_run d c n :
  getAllPurchasedCourse {| db := d; dbBudget := None; console := c; objectIds := n |}
  = (Returned (Some {| statusCode := 200;
                       resBody := JsonPurchasedCourse
                         (List.map (populate_courseId d)
                            (List.filter (has_status "completed") (CoursePurchases d))) |}),
     {| db := d; dbBudget := None; console := c; objectIds := n |}).
Proof.
  unfold getAllPurchasedCourse, getAllPurchasedCourse_try, CoursePurchase_find_status_populated.
  run. now destruct d.
Qed.

(** X19: once a verified "checkout.session.completed" event has been
    processed for a purchase whose course exists, [getAllPurchasedCourse]
    lists that purchase, with status completed and paired with its
    course, whose enrolledStudents holds the buyer. *)
Theorem completed_then_listed rt req event w purchase course :
  dbBudget w = None ->
  verified_as rt req event ->
  event_type event = "checkout.session.completed" ->
  findOne (has_paymentId (session_id (event_data_object event)))
    (CoursePurchases (db w)) = Some purchase ->
  findOne (has_course_id (courseId purchase)) (Courses (db w)) = Some course ->
  exists l p c,
    fst (getAllPurchasedCourse (snd (stripeWebhook rt req w)))
    = Returned (Some {| statusCode := 200; resBody := JsonPurchasedCourse l |})
    /\ In (p, Some c) l
    /\ purchase_id p = purchase_id purchase
    /\ status p = "completed"
    /\ course_id c = courseId purchase
    /\ In (userId purchase) (enrolledStudents c).
Proof.
  intros Hb Hv Ht Hp Hc. destruct w as [d b c n]. simpl in Hb, Hp, Hc. subst b.
  destruct (completed_enrolled rt req event Hv Ht d c n purchase course Hp Hc) as [c1 ->].
  cbn [snd]. rewrite listing_run. cbn [fst].
  set (p' := settle (event_data_object event) purchase).
  destruct (settle_fields (event_data_object event) purchase) as (Hid & Hcid & Huid & _ & Hst).
  fold p' in Hid, Hcid, Huid, Hst.
  pose proof (findOne_course_id _ _ _ Hc) as Hcourse.
  exists (List.map (populate_courseId (db_enrolled p' course d))
            (List.filter (has_status "completed")
               (CoursePurchases (db_enrolled p' course d)))),
    p', (set_enrolledStudents (addToSet (userId p')) course).
  split; [reflexivity|]. split; [|split; [assumption|split; [assumption|split]]].
  - apply List.in_map_iff. exists p'. split.
    + unfold populate_courseId. f_equal. unfold db_enrolled. cbn [Courses].
      rewrite Hcid, Hcourse. rewrite findOne_updateOne by (intros x Hx; exact Hx).
      now rewrite Hc.
    + apply List.filter_In. split.
      * pose proof (findOne_saved_purchases _ (event_data_object event) _ _ Hp) as Hs.
        apply findOne_In in Hs. exact (proj1 Hs).
      * unfold has_status. rewrite Hst. reflexivity.
  - exact Hcourse.
  - cbn. rewrite Huid. apply addToSet_In.
Qed.

Lemma completed_then_listed_witness :
  exists l p c,
    fst (getAllPurchasedCourse
           (snd (stripeWebhook (completed_runtime (Some (of_Z 1000)))
                   sample_webhook_request (sample_world None))))
    = Returned (Some {| statusCode := 200; resBody := JsonPurchasedCourse l |})
    /\ In (p, Some c) l
    /\ purchase_id p = "p1"
    /\ status p = "completed"
    /\ course_id c = "c1"
    /\ In "u1" (enrolledStudents c).
Proof.
  exact (completed_then_listed (completed_runtime (Some (of_Z 1000)))
           sample_webhook_request _ (sample_world None) sample_purchase sample_course
           eq_refl (completed_runtime_verified _) eq_refl eq_refl eq_refl).
Defined.

(** ** Whole-number prices *)

Lemma whole_prices_checked :
  List.forallb whole_price_checked (List.seq 1 200) = true.
Proof. vm_compute. reflexivity. Qed.

(** X20: among the whole-number course prices from 1 to 200, the amount
    handed to the provider is a whole number of cents, equal to
    round((price / 3.32) * 100), except at the seventeen prices 15, 27,
    30, 57, 62, 65, 107, 110, 112, 114, 119, 121, 123, 126, 128, 130 and
    135, where it is not an integer. *)
Theorem whole_prices_up_to_200 (n : nat) :
  (1 <= n <= 200)%nat ->
  (In n fractional_whole_prices ->
   is_integer (convertedPrice (of_Z (Z.of_nat n))) = false)
  /\ (~ In n fractional_whole_prices ->
      is_integer (convertedPrice (of_Z (Z.of_nat n))) = true
      /\ convertedPrice (of_Z (Z.of_nat n)) = spec_minor_units (of_Z (Z.of_nat n))).
Proof.
  intros Hn.
  pose proof (proj1 (List.forallb_forall _ _) whole_prices_checked n) as H.
  assert (Hin : In n (List.seq 1 200)) by (apply List.in_seq; lia).
  specialize (H Hin). unfold whole_price_checked in H.
  destruct (List.existsb (Nat.eqb n) fractional_whole_prices) eqn:E.
  - split.
    + intros _. now apply Bool.negb_true_iff in H.
    + intros Hnot. exfalso. apply Hnot. apply List.existsb_exists in E.
      destruct E as [m [Hm Hnm]]. apply Nat.eqb_eq in Hnm. now subst.
  - split.
    + intros Hyes. exfalso.
      assert (List.existsb (Nat.eqb n) fractional_whole_prices = true).
      { apply List.existsb_exists. exists n. split; [assumption | apply Nat.eqb_refl]. }
      congruence.
    + intros _. apply Bool.andb_true_iff in H. destruct H as [H1 H2].
      split; [assumption|].
      destruct (convertedPrice (of_Z (Z.of_nat n))) as [| | |s1 m1 e1]; try discriminate.
      destruct (spec_minor_units (of_Z (Z.of_nat n))) as [| | |s2 m2 e2]; try discriminate.
      apply Bool.andb_true_iff in H2. destruct H2 as [H2 H3].
      apply Bool.andb_true_iff in H2. destruct H2 as [H2 H4].
      apply Bool.eqb_prop in H2. apply Pos.eqb_eq in H4. apply Z.eqb_eq in H3.
      now subst.
Qed.

Lemma whole_prices_up_to_200_witness :
  is_integer (convertedPrice (of_Z 27)) = false
  /\ convertedPrice (of_Z 100) = spec_minor_units (of_Z 100).
Proof.
  split.
  - exact (proj1 (whole_prices_up_to_200 27
                    (conj (proj1 (Nat.leb_le 1 27) eq_refl)
                          (proj1 (Nat.leb_le 27 200) eq_refl)))
                 (or_intror (or_introl eq_refl))).
  - refine (proj2 (proj2 (whole_prices_up_to_200 100
                            (conj (proj1 (Nat.leb_le 1 100) eq_refl)
                                  (proj1 (Nat.leb_le 100 200) eq_refl))) _)).
    intros H. repeat (destruct H as [H|H]; [discriminate H|]). exact H.
Defined.

(** ** Signature verification against the provider's signing scheme *)

Lemma split_on_free c s : free_of c s = true -> split_on c s = [s].
Proof.
  induction s as [|a s IH]; simpl; [reflexivity|].
  intros H. apply Bool.andb_true_iff in H. destruct H as [Ha Hs].
  apply Bool.negb_true_iff in Ha. rewrite Ha, (IH Hs). reflexivity.
Qed.

Lemma split_on_app c a b :
  free_of c a = true -> split_on c (a ++ String c b) = a :: split_on c b.
Proof.
  induction a as [|x a IH]; simpl.
  - intros _. now rewrite Ascii.eqb_refl.
  - intros H. apply Bool.andb_true_iff in H. destruct H as [Hx Ha].
    apply Bool.negb_true_iff in Hx. rewrite Hx, (IH Ha). reflexivity.
Qed.

Lemma hex_digest_free c s :
  is_hex c = false -> hex_digest s = true -> free_of c s = true.
Proof.
  intros Hc. induction s as [|a s IH]; simpl; [reflexivity|].
  intros H. apply Bool.andb_true_iff in H. destruct H as [Ha Hs].
  rewrite (IH Hs), Bool.andb_true_r. apply Bool.negb_true_iff.
  destruct (Ascii.eqb a c) eqn:E; [|reflexivity].
  apply Ascii.eqb_eq in E. congruence.
Qed.

Lemma hex_digest_numeral d : hex_digest (NilEmpty.string_of_uint d) = true.
Proof. induction d; simpl; auto. Qed.

Lemma hex_digest_number n : hex_digest (number_to_string n) = true.
Proof.
  unfold number_to_string, NilZero.string_of_uint.
  destruct (N.to_uint n); try reflexivity; apply hex_digest_numeral.
Qed.

Lemma parseInt_number n : parseInt (number_to_string n) = Some n.
Proof.
  unfold parseInt, number_to_string.
  destruct (NilZero.usu_gen (N.to_uint n)) as [H|H]; rewrite H; simpl; f_equal.
  - apply DecimalN.Unsigned.of_to.
  - apply NilZero.sus in H. rewrite <- (DecimalN.Unsigned.of_to n).
    unfold NilZero.string_of_uint in H.
    destruct (N.to_uint n) as [|u|u|u|u|u|u|u|u|u|u]; try discriminate H; try reflexivity.
    simpl in H. injection H as H. destruct u; try discriminate H. reflexivity.
Qed.

Lemma parseHeader_generated ts sig :
  hex_digest ts = true -> hex_digest sig = true ->
  parseHeader ("t=" ++ ts ++ ",v1=" ++ sig) "v1"
  = {| header_timestamp := parseInt ts; header_signatures := [Some sig] |}.
Proof.
  intros Hts Hsig.
  assert (Hc1 : free_of "," ts = true) by (apply hex_digest_free; auto).
  assert (Hc2 : free_of "," sig = true) by (apply hex_digest_free; auto).
  assert (He1 : free_of "=" ts = true) by (apply hex_digest_free; auto).
  assert (He2 : free_of "=" sig = true) by (apply hex_digest_free; auto).
  unfold parseHeader.
  change ("t=" ++ ts ++ ",v1=" ++ sig) with (("t=" ++ ts) ++ String "," ("v1=" ++ sig)).
  rewrite split_on_app by (simpl; exact Hc1).
  rewrite split_on_free by (simpl; exact Hc2).
  cbn [List.fold_left]. unfold parseHeader_item.
  change ("t=" ++ ts) with ("t" ++ String "=" ts).
  change ("v1=" ++ sig) with ("v1" ++ String "=" sig).
  rewrite !split_on_app by reflexivity.
  rewrite (split_on_free "=" ts He1), (split_on_free "=" sig He2).
  reflexivity.
Qed.

Section SelfSigned.
Variable env : SdkEnv.
Hypothesis Hhex : forall content key, hex_digest (computeHMACSignature env content key) = true.

(** The SDK accepts the header it generated for the same payload and
    secret, while the clocks are within the tolerance. *)
Lemma sdk_accepts_generated payload key event :
  (now_verifying env <= now_signing env + DEFAULT_TOLERANCE)%N ->
  payload <> "" ->
  JSON_parse env payload = Some event ->
  exists header,
    sdk_generateTestHeaderString env payload (Some key) = inr header
    /\ sdk_constructEvent env payload header (Some key) = inr event.
Proof.
  intros Hclock Hpayload Hparse.
  exists ("t=" ++ number_to_string (now_signing env) ++ ",v1="
          ++ computeHMACSignature env
               (number_to_string (now_signing env) ++ "." ++ payload) key).
  split; [reflexivity|].
  unfold sdk_constructEvent.
  apply String.eqb_neq in Hpayload. rewrite Hpayload.
  match goal with
  | |- context [String.eqb ?h ""] => change (String.eqb h "") with false
  end.
  cbv iota.
  rewrite parseHeader_generated by (apply hex_digest_number || apply Hhex).
  rewrite parseInt_number. cbn [header_timestamp header_signatures List.existsb].
  rewrite String.eqb_refl. cbn [orb negb].
  apply N.ltb_ge in Hclock. rewrite Hclock, Hparse. reflexivity.
Qed.

(** It rejects a header of the same shape whose signature is not the
    HMAC of the timestamp and the payload. *)
Lemma sdk_rejects_forged payload key timestamp signature :
  payload <> "" ->
  hex_digest signature = true ->
  signature <> computeHMACSignature env (number_to_string timestamp ++ "." ++ payload) key ->
  sdk_constructEvent env payload
    ("t=" ++ number_to_string timestamp ++ ",v1=" ++ signature) (Some key)
  = inl (StripeSignatureVerificationError
           "No signatures found matching the expected signature for payload.").
Proof.
  intros Hpayload Hsig Hneq. unfold sdk_constructEvent.
  apply String.eqb_neq in Hpayload. rewrite Hpayload.
  match goal with
  | |- context [String.eqb ?h ""] => change (String.eqb h "") with false
  end.
  cbv iota.
  rewrite parseHeader_generated by (apply hex_digest_number || assumption).
  rewrite parseInt_number. cbn [header_timestamp header_signatures List.existsb].
  assert (E : String.eqb
                (computeHMACSignature env (number_to_string timestamp ++ "." ++ payload) key)
                signature = false)
    by (apply String.eqb_neq; congruence).
  rewrite E. reflexivity.
Qed.

End SelfSigned.

(** C10: with the provider SDK following its documented signing scheme
    (for any hexadecimal HMAC, any configured secret and clocks within
    the tolerance), every request whose body serializes to a non-empty
    payload that parses to an event is verified as that event, whatever
    headers it carries: the handler signs the serialized body itself,
    goes on to dispatch the event, and never answers 400.  The same SDK
    rejects a header for that payload whose signature is not the HMAC, so
    a signature header supplied with the request plays no part. *)
Theorem webhook_signature_self_generated env secret stringify newId req event w :
  let rt := {| stripe := stripe_sdk env;
               WEBHOOK_ENDPOINT_SECRET := Some secret;
               JSON_stringify := stringify;
               newObjectId := newId |} in
  (forall content key, hex_digest (computeHMACSignature env content key) = true) ->
  (now_verifying env <= now_signing env + DEFAULT_TOLERANCE)%N ->
  stringify (webhook_body req) <> "" ->
  JSON_parse env (stringify (webhook_body req)) = Some event ->
  constructVerifiedEvent rt req w = (Returned event, w)
  /\ (forall headers,
        stripeWebhook rt {| webhook_body := webhook_body req; webhook_headers := headers |} w
        = try_catch (dispatchEvent event)
            (fun error =>
               console_log [LogText "Error handling webhook event:"; LogError error] ;;;
               respond 500 (JsonMessage "Internal Server Error")) w)
  /\ (forall headers r w',
        stripeWebhook rt {| webhook_body := webhook_body req; webhook_headers := headers |} w
        = (Returned (Some r), w') ->
        statusCode r <> 400)
  /\ (forall timestamp signature,
        hex_digest signature = true ->
        signature <> computeHMACSignature env
                       (number_to_string timestamp ++ "." ++ stringify (webhook_body req))
                       secret ->
        webhooks_constructEvent (stripe rt) (stringify (webhook_body req))
          ("t=" ++ number_to_string timestamp ++ ",v1=" ++ signature) (Some secret)
        = inl (StripeSignatureVerificationError
                 "No signatures found matching the expected signature for payload.")).
Proof.
  intros rt Hhex Hclock Hpayload Hparse.
  destruct (sdk_accepts_generated env Hhex (stringify (webhook_body req)) secret event
              Hclock Hpayload Hparse) as (header & Hgen & Hcons).
  assert (Hv : forall headers,
             verified_as rt {| webhook_body := webhook_body req;
                               webhook_headers := headers |} event).
  { intros headers w0. unfold constructVerifiedEvent, rt.
    cbn [stripe WEBHOOK_ENDPOINT_SECRET JSON_stringify webhook_body stripe_sdk
         webhooks_generateTestHeaderString webhooks_constructEvent].
    rewrite Hgen. run. now rewrite Hcons. }
  split; [exact (Hv (webhook_headers req) w)|]. split; [|split].
  - intros headers. apply stripeWebhook_verified, Hv.
  - intros headers r w' H. rewrite (stripeWebhook_verified _ _ _ _ (Hv headers)) in H.
    revert w r w' H. apply responds_with_try_catch.
    + apply dispatchEvent_codes.
    + intros e. apply responds_with_bind. intros _.
      apply responds_with_respond. simpl. discriminate.
  - intros timestamp signature Hsig Hneq.
    exact (sdk_rejects_forged env (stringify (webhook_body req)) secret
             timestamp signature Hpayload Hsig Hneq).
Qed.

Lemma webhook_signature_self_generated_witness :
  constructVerifiedEvent sample_sdk_runtime
    {| webhook_body := JObject [];
       webhook_headers := [("stripe-signature", "t=1,v1=forged")] |} (sample_world None)
  = (Returned (sample_event "checkout.session.expired" None), sample_world None)
  /\ fst (stripeWebhook sample_sdk_runtime
            {| webhook_body := JObject [];
               webhook_headers := [("stripe-signature", "t=1,v1=forged")] |}
            (sample_world None))
     = ok_empty.
Proof.
  assert (Hclock : (now_verifying sample_sdk_env
                    <= now_signing sample_sdk_env + DEFAULT_TOLERANCE)%N)
    by (vm_compute; discriminate).
  assert (Hpayload : "{}" <> "") by discriminate.
  pose proof (webhook_signature_self_generated sample_sdk_env "whsec" (fun _ => "{}")
                (fun _ => "p2")
                {| webhook_body := JObject [];
                   webhook_headers := [("stripe-signature", "t=1,v1=forged")] |}
                (sample_event "checkout.session.expired" None) (sample_world None)
                (fun _ _ => eq_refl) Hclock Hpayload eq_refl) as H.
  cbv zeta in H. destruct H as (H1 & H2 & _). split; [exact H1|].
  exact (eq_trans (f_equal fst (H2 [("stripe-signature", "t=1,v1=forged")])) eq_refl).
Defined.
